(** * The HTTP client of the PCF core services: classifier, retry policy,
      interceptors and request loop.

    Shallow embedding of
      - [src/core/error/ErrorTypes.ts], [src/core/error/ErrorHandler.ts]
      - [src/core/http/HttpInterceptor.ts], [src/core/http/RetryPolicy.ts]
      - [src/core/http/HttpClient.ts]
      - [src/core/error/ErrorFormatter.ts] (the message for the user)
      - [src/services/iHubService.ts] (the service that calls the client)

    Conventions.
      - A JavaScript value of type [any] is a [JSValue]; objects are
        association lists in insertion order, a key is looked up at its
        first occurrence.  Functions, arrays and symbols are not values of
        the model.
      - A JavaScript number is an integer [Num z] or [NaN].  Fractions,
        infinities and the loss of precision of doubles beyond 2^53 are
        outside the model.
      - A call that can raise returns a [Completion]: [Return v] or
        [Throw e] with the thrown value [e].
      - Code that awaits or performs I/O runs in the monad [M] over a
        [World] that records every transport exchange, every back-off wait
        and every warning that was logged.
      - What the hosting runtime provides ([JSON.stringify], [fetch], the
        clock) is an instance of the class [Platform]. *)

From Stdlib Require Import ZArith String Ascii List Bool Lia DecimalString.
From stdpp Require Import base option list gmap strings.

Local Open Scope string_scope.
Local Open Scope Z_scope.

(** ** JavaScript values *)

Inductive JSNumber : Type :=
| Num (z : Z)
| NaN.

#[warnings="-register-all"]
Inductive JSValue : Type :=
| JUndefined
| JNull
| JBool (b : bool)
| JNum (n : JSNumber)
| JStr (s : string)
| JObj (fields : list (string * JSValue)).

(** The outcome of evaluating code that may raise. *)
Inductive Completion (A : Type) : Type :=
| Return (a : A)
| Throw (e : JSValue).

Arguments Return {A} a.
Arguments Throw {A} e.

Definition bind {A B} (c : Completion A) (k : A -> Completion B) : Completion B :=
  match c with
  | Return a => k a
  | Throw e => Throw e
  end.

Declare Scope js_scope.
Delimit Scope js_scope with js.
Notation "x <- c ;; k" := (bind c (fun x => k))
  (at level 100, c at next level, right associativity) : js_scope.
Local Open Scope js_scope.

Definition completes {A} (c : Completion A) : bool :=
  match c with Return _ => true | Throw _ => false end.

Module JS.

(** [ToBoolean]. *)
Definition truthy (v : JSValue) : bool :=
  match v with
  | JUndefined | JNull => false
  | JBool b => b
  | JNum (Num z) => negb (z =? 0)
  | JNum NaN => false
  | JStr s => negb (String.eqb s EmptyString)
  | JObj _ => true
  end.

(** [a || b] and [a && b] on values. *)
Definition or (a b : JSValue) : JSValue := if truthy a then a else b.
Definition and (a b : JSValue) : JSValue := if truthy a then b else a.

Fixpoint assoc (k : string) (fs : list (string * JSValue)) : option JSValue :=
  match fs with
  | [] => None
  | (k', v) :: fs' => if String.eqb k k' then Some v else assoc k fs'
  end.

(** [k in v] for an object [v]. *)
Definition has (k : string) (v : JSValue) : bool :=
  match v with
  | JObj fs => bool_decide (is_Some (assoc k fs))
  | _ => false
  end.

(** [v?.k]: [undefined] on [undefined] and [null]; on the primitives none
    of the keys the client reads exists, so the result is [undefined]. *)
Definition opt (v : JSValue) (k : string) : JSValue :=
  match v with
  | JObj fs => default JUndefined (assoc k fs)
  | _ => JUndefined
  end.

Definition TypeError (msg : string) : JSValue :=
  JObj [("name", JStr "TypeError"); ("message", JStr msg)].

(** [v.k]: raises on [undefined] and [null]. *)
Definition dot (v : JSValue) (k : string) : Completion JSValue :=
  match v with
  | JUndefined | JNull =>
      Throw (TypeError ("Cannot read properties of undefined (reading '" +:+ k +:+ "')"))
  | _ => Return (opt v k)
  end.

(** [v === "s"] and [v === n] against a literal. *)
Definition eq_str (v : JSValue) (s : string) : bool :=
  match v with JStr s' => String.eqb s' s | _ => false end.

Definition eq_num (v : JSValue) (n : Z) : bool :=
  match v with JNum (Num z) => z =? n | _ => false end.

Definition typeof_string (v : JSValue) : bool :=
  match v with JStr _ => true | _ => false end.

Definition typeof_object (v : JSValue) : bool :=
  match v with JNull | JObj _ => true | _ => false end.

(** *** Strings *)

Definition lower_ascii (c : ascii) : ascii :=
  let n := nat_of_ascii c in
  if ((65 <=? n) && (n <=? 90))%nat then ascii_of_nat (n + 32) else c.

(** [String.prototype.toLowerCase], on the ASCII letters. *)
Fixpoint toLowerCase (s : string) : string :=
  match s with
  | EmptyString => EmptyString
  | String c s' => String (lower_ascii c) (toLowerCase s')
  end.

Definition startsWith (s pre : string) : bool := String.prefix pre s.

(** [s.includes(sub)]. *)
Fixpoint includes (s sub : string) : bool :=
  String.prefix sub s ||
  match s with
  | EmptyString => false
  | String _ s' => includes s' sub
  end.

(** [v.toLowerCase()] and [v.includes(sub)] on a value that the caller
    has not checked to be a string: anything but a string has no such
    method in the model and the call raises. *)
Definition call_toLowerCase (v : JSValue) : Completion string :=
  match v with
  | JStr s => Return (toLowerCase s)
  | _ => Throw (TypeError "toLowerCase is not a function")
  end.

Definition call_includes (v : JSValue) (sub : string) : Completion bool :=
  match v with
  | JStr s => Return (includes s sub)
  | _ => Throw (TypeError "includes is not a function")
  end.

(** *** Numbers *)

Definition is_space (c : ascii) : bool :=
  let n := nat_of_ascii c in
  ((n =? 32) || ((9 <=? n) && (n <=? 13)))%nat.

Fixpoint skip_spaces (s : string) : string :=
  match s with
  | String c s' => if is_space c then skip_spaces s' else s
  | EmptyString => EmptyString
  end.

Definition digit_of (radix : Z) (c : ascii) : option Z :=
  let n := Z.of_nat (nat_of_ascii c) in
  let d := if (48 <=? n) && (n <=? 57) then Some (n - 48)
           else if (97 <=? n) && (n <=? 122) then Some (n - 87)
           else if (65 <=? n) && (n <=? 90) then Some (n - 55)
           else None in
  match d with
  | Some d => if d <? radix then Some d else None
  | None => None
  end.

(** The longest prefix of digits of [s], read in [radix], after [acc];
    [seen] tells whether a digit was read. *)
Fixpoint digits (radix : Z) (s : string) (seen : bool) (acc : Z) : JSNumber * string :=
  match s with
  | EmptyString => (if seen then Num acc else NaN, EmptyString)
  | String c s' =>
      match digit_of radix c with
      | Some d => digits radix s' true (radix * acc + d)
      | None => (if seen then Num acc else NaN, s)
      end
  end.

Definition neg (n : JSNumber) : JSNumber :=
  match n with Num z => Num (- z) | NaN => NaN end.

Definition mul (a b : JSNumber) : JSNumber :=
  match a, b with Num x, Num y => Num (x * y) | _, _ => NaN end.

Definition strip_hex (s : string) : option string :=
  match s with
  | String "0" (String "x" s') | String "0" (String "X" s') => Some s'
  | _ => None
  end.

Definition parseInt_string (s : string) : JSNumber :=
  let s := skip_spaces s in
  let '(sign, s) :=
    match s with
    | String "-" s' => (true, s')
    | String "+" s' => (false, s')
    | _ => (false, s)
    end in
  let n := match strip_hex s with
           | Some s' => fst (digits 16 s' false 0)
           | None => fst (digits 10 s false 0)
           end in
  if sign then neg n else n.

(** [parseInt(v)]: the argument is first turned into a string; an integer
    below 10^21 prints as its digits, and the other values print as words
    that start with no digit. *)
Definition parseInt (v : JSValue) : JSNumber :=
  match v with
  | JStr s => parseInt_string s
  | JNum n => n
  | _ => NaN
  end.

(** [Number(s)] for a string: surrounding white space is dropped, the
    empty string is 0, an optionally signed run of decimal digits is its
    value; every other text counts as not a number in the integer model. *)
Definition toNumber_string (s : string) : JSNumber :=
  let s := skip_spaces s in
  match s with
  | EmptyString => Num 0
  | _ =>
    let '(sign, s) :=
      match s with
      | String "-" s' => (true, s')
      | String "+" s' => (false, s')
      | _ => (false, s)
      end in
    match digits 10 s false 0 with
    | (n, rest) =>
        match skip_spaces rest with
        | EmptyString => if sign then neg n else n
        | _ => NaN
        end
    end
  end.

(** [ToNumber]. *)
Definition toNumber (v : JSValue) : JSNumber :=
  match v with
  | JUndefined => NaN
  | JNull => Num 0
  | JBool b => Num (if b then 1 else 0)
  | JNum n => n
  | JStr s => toNumber_string s
  | JObj _ => NaN
  end.

(** [v >= n] and [v < n] against a literal: false on [NaN]. *)
Definition ge (v : JSValue) (n : Z) : bool :=
  match toNumber v with Num z => n <=? z | NaN => false end.

Definition lt (v : JSValue) (n : Z) : bool :=
  match toNumber v with Num z => z <? n | NaN => false end.

End JS.

(** ** [ErrorTypes.ts] *)

Module ErrorTypes.

Inductive ErrorCategory : Type :=
| NETWORK
| AUTHENTICATION
| AUTHORIZATION
| VALIDATION
| BUSINESS
| SYSTEM
| UNKNOWN.

#[export] Instance ErrorCategory_eq_dec : EqDecision ErrorCategory.
Proof. solve_decision. Defined.

Record ErrorContext : Type := {
  service : option string;
  operation : option string;
  entity : option string;
  recordId : option string;
  userId : option string;
  timestamp : option string;
  additionalData : option (list (string * JSValue))
}.

Definition no_context : ErrorContext :=
  {| service := None; operation := None; entity := None; recordId := None;
     userId := None; timestamp := None; additionalData := None |}.

Record ErrorInfo : Type := {
  category : ErrorCategory;
  message : JSValue;
  originalError : JSValue;
  context : ErrorContext;
  userMessage : option string;
  shouldRetry : bool;
  retryAfter : option JSNumber;
  statusCode : JSValue;
  errorCode : JSValue
}.

End ErrorTypes.
Export ErrorTypes.

(** ** [RetryPolicy.ts] and [HttpInterceptor.ts]: the data *)

Record RetryPolicy : Type := {
  maxAttempts : Z;
  baseDelay : Z;
  maxDelay : Z;
  exponentialBackoff : bool;
  retryableErrors : option (list ErrorCategory)
}.

Definition DefaultRetryPolicy : RetryPolicy :=
  {| maxAttempts := 3; baseDelay := 1000; maxDelay := 10000;
     exponentialBackoff := true;
     retryableErrors := Some [NETWORK; SYSTEM] |}.

Module HttpInterceptor.

Inductive Method : Type := GET | POST | PUT | DELETE | PATCH.

#[export] Instance Method_eq_dec : EqDecision Method.
Proof. solve_decision. Defined.

Record HttpRequestConfig : Type := {
  url : string;
  method : Method;
  headers : option (gmap string string);
  body : JSValue;
  timeout : option Z;
  retryPolicy : option RetryPolicy
}.

Record HttpResponse : Type := {
  data : JSValue;
  status : Z;
  statusText : string;
  response_headers : gmap string string;
  config : HttpRequestConfig
}.

(** The hooks are asynchronous functions of their argument; they may raise.
    A hook is taken to return its result without changing its argument in
    place: [request] hands the same configuration object to the hooks at
    every attempt, and what a hook writes into it is not followed here. *)
Record IHttpInterceptor : Type := {
  onRequest : option (HttpRequestConfig -> Completion HttpRequestConfig);
  onResponse : option (HttpResponse -> Completion HttpResponse);
  onError : option (JSValue -> Completion JSValue)
}.

End HttpInterceptor.
Export HttpInterceptor.

(** ** The hosting runtime *)

(** The second argument of [fetch].  [signal] is the delay after which the
    abort controller of the attempt fires; [init_body] is [None] when the
    property is not set. *)
Record RequestInit : Type := {
  init_method : Method;
  init_headers : option (gmap string string);
  signal : option Z;
  init_body : option JSValue
}.

(** What [fetch] resolves to.  [fetched_headers] has the names as the
    [Headers] object lists them (lower case); [json] is what reading the
    body as JSON gives, [text] the body as text. *)
Record Response : Type := {
  ok : bool;
  fetched_status : Z;
  fetched_statusText : string;
  fetched_headers : gmap string string;
  text : string;
  json : Completion JSValue
}.

(** How an exchange ends: with a response, with an exception of the
    transport, or not at all before the abort signal of the attempt fires. *)
Inductive FetchOutcome : Type :=
| Resolves (r : Response)
| Rejects (e : JSValue)
| Pending.

Class Platform : Type := {
  (** [JSON.stringify]: a string, [undefined], or an exception. *)
  JSON_stringify : JSValue -> Completion JSValue;
  (** The transport: the outcome of the exchange, given how many exchanges
      went before it. *)
  transport : nat -> string -> RequestInit -> FetchOutcome;
  (** [new Date().toISOString()]. *)
  now : string
}.

(** The exception with which [fetch] rejects once the abort signal fired. *)
Definition AbortError : JSValue :=
  JObj [("name", JStr "AbortError"); ("message", JStr "The operation was aborted.")].

(** ** [ErrorFormatter.ts] *)

Module ErrorFormatter.

(** The text for the user.  [errorInfo.message] has whatever type the
    error's own message had, so the result is a value. *)
Definition formatUserMessage (errorInfo : ErrorInfo) : JSValue :=
  let byCategory :=
    match category errorInfo with
    | NETWORK => JStr "Network error. Please check your connection and try again."
    | AUTHENTICATION => JStr "Authentication error. Please refresh the page and try again."
    | AUTHORIZATION => JStr "You do not have permission to perform this action."
    | VALIDATION =>
        JS.or (message errorInfo) (JStr "Validation error. Please check your input.")
    | BUSINESS => JS.or (message errorInfo) (JStr "A business rule error occurred.")
    | SYSTEM => JStr "A system error occurred. Please try again later."
    | UNKNOWN => JS.or (message errorInfo) (JStr "An unexpected error occurred.")
    end in
  match userMessage errorInfo with
  | Some text => if String.eqb text EmptyString then byCategory else JStr text
  | None => byCategory
  end.

End ErrorFormatter.

(** ** [ErrorHandler.ts] *)

Module ErrorHandler.
Section WithPlatform.
Context `{Platform}.

Definition extractStatusCode (error : JSValue) : JSValue :=
  JS.or (JS.opt error "status")
    (JS.or (JS.opt error "statusCode")
       (JS.or (JS.opt (JS.opt error "response") "status")
              (JS.opt (JS.opt error "response") "statusCode"))).

Definition extractErrorCode (error : JSValue) : JSValue :=
  JS.or (JS.opt error "code")
    (JS.or (JS.opt (JS.opt error "error") "code")
           (JS.opt (JS.opt (JS.opt (JS.opt error "response") "data") "error") "code")).

Definition extractMessage (error : JSValue) : Completion JSValue :=
  if negb (JS.truthy error) then Return (JStr "An unknown error occurred")
  else if JS.truthy (JS.opt (JS.opt error "error") "message") then
    e <- JS.dot error "error";; JS.dot e "message"
  else if JS.truthy (JS.opt error "message") then JS.dot error "message"
  else if JS.typeof_string error then Return error
  else match JSON_stringify error with
       | Return s => Return s
       | Throw _ => Return (JStr "An unknown error occurred")
       end.

Definition isNetworkError (error : JSValue) : Completion bool :=
  if negb (JS.truthy error) then Return false
  else
    m <- JS.dot error "message";;
    message <- JS.call_toLowerCase (JS.or m (JStr EmptyString));;
    c <- JS.dot error "code";;
    code <- JS.call_toLowerCase (JS.or c (JStr EmptyString));;
    name <- JS.dot error "name";;
    Return (JS.includes message "network"
            || JS.includes message "fetch"
            || JS.includes message "connection"
            || JS.includes message "timeout"
            || String.eqb code "econnrefused"
            || String.eqb code "enetunreach"
            || String.eqb code "etimedout"
            || JS.eq_str name "NetworkError"
            || (JS.eq_str name "TypeError" && JS.includes message "fetch")).

Definition isAuthenticationError (error : JSValue) : bool :=
  let statusCode := extractStatusCode error in
  JS.eq_num statusCode 401
  || JS.eq_str (JS.opt error "code") "UNAUTHORIZED"
  || JS.eq_str (JS.opt error "name") "UnauthorizedError".

Definition isAuthorizationError (error : JSValue) : bool :=
  let statusCode := extractStatusCode error in
  JS.eq_num statusCode 403
  || JS.eq_str (JS.opt error "code") "FORBIDDEN"
  || JS.eq_str (JS.opt error "name") "ForbiddenError".

(** The last disjunct is [error?.error?.code && error.error.code.includes(..)]:
    its value is the code itself when that is falsy. *)
Definition isValidationError (error : JSValue) : Completion bool :=
  let statusCode := extractStatusCode error in
  if JS.eq_num statusCode 400
     || JS.eq_str (JS.opt error "code") "VALIDATION_ERROR"
     || JS.eq_str (JS.opt error "name") "ValidationError"
  then Return true
  else if JS.truthy (JS.opt (JS.opt error "error") "code") then
    e <- JS.dot error "error";;
    c <- JS.dot e "code";;
    JS.call_includes c "Validation"
  else Return false.

Definition isBusinessError (error : JSValue) : bool :=
  let statusCode := extractStatusCode error in
  JS.ge statusCode 400
  && JS.lt statusCode 500
  && negb (JS.eq_num statusCode 401)
  && negb (JS.eq_num statusCode 403)
  && negb (JS.eq_num statusCode 400).

Definition isSystemError (error : JSValue) : bool :=
  let statusCode := extractStatusCode error in
  JS.ge statusCode 500 && JS.lt statusCode 600.

Definition categorize (error : JSValue) : Completion ErrorCategory :=
  net <- isNetworkError error;;
  if net then Return NETWORK
  else if isAuthenticationError error then Return AUTHENTICATION
  else if isAuthorizationError error then Return AUTHORIZATION
  else
    val <- isValidationError error;;
    if val then Return VALIDATION
    else if isBusinessError error then Return BUSINESS
    else if isSystemError error then Return SYSTEM
    else Return UNKNOWN.

Definition shouldRetry (error : JSValue) : Completion bool :=
  category <- categorize error;;
  if bool_decide (category = NETWORK) || bool_decide (category = SYSTEM)
  then Return true
  else
    let statusCode := extractStatusCode error in
    if JS.eq_num statusCode 429 then Return true else Return false.

(** The header as [getRetryAfter] reads it. *)
Definition retryAfterHeader (error : JSValue) : JSValue :=
  JS.or (JS.opt (JS.opt (JS.opt error "response") "headers") "retry-after")
        (JS.opt (JS.opt error "headers") "retry-after").

Definition getRetryAfter (error : JSValue) : Completion (option JSNumber) :=
  let statusCode := extractStatusCode error in
  if JS.eq_num statusCode 429 then
    let retryAfter := retryAfterHeader error in
    if JS.truthy retryAfter
    then Return (Some (JS.mul (JS.parseInt retryAfter) (Num 1000)))
    else Return (Some (Num 1000))
  else
    category <- categorize error;;
    if bool_decide (category = NETWORK) || bool_decide (category = SYSTEM)
    then Return (Some (Num 1000))
    else Return None.

Definition parse (error : JSValue) (ctx : ErrorContext) : Completion ErrorInfo :=
  category <- categorize error;;
  message <- extractMessage error;;
  let statusCode := extractStatusCode error in
  let errorCode := extractErrorCode error in
  retry <- shouldRetry error;;
  after <- getRetryAfter error;;
  Return {| category := category;
            message := message;
            originalError := error;
            context := {| service := service ctx;
                          operation := operation ctx;
                          entity := entity ctx;
                          recordId := recordId ctx;
                          userId := userId ctx;
                          timestamp := Some now;
                          additionalData := additionalData ctx |};
            userMessage := None;
            statusCode := statusCode;
            errorCode := errorCode;
            ErrorTypes.shouldRetry := retry;
            retryAfter := after |}.

Definition getUserMessage (error : JSValue) (ctx : ErrorContext) : Completion JSValue :=
  errorInfo <- parse error ctx;;
  Return (ErrorFormatter.formatUserMessage errorInfo).

End WithPlatform.
End ErrorHandler.


(** ** [RetryPolicy.ts]: the helper *)

Module RetryPolicyHelper.
Section WithPlatform.
Context `{Platform}.

(** [attempt] counts from 1, as [request] does. *)
Definition calculateDelay (attempt : Z) (policy : RetryPolicy) : Z :=
  if negb (exponentialBackoff policy) then baseDelay policy
  else
    let delay := baseDelay policy * 2 ^ (attempt - 1) in
    Z.min delay (maxDelay policy).

Definition shouldRetry (error : JSValue) (attempt : Z) (policy : RetryPolicy)
  : Completion bool :=
  if maxAttempts policy <=? attempt then Return false
  else
    errorInfo <- ErrorHandler.parse error no_context;;
    match retryableErrors policy with
    | Some (c :: cs) => Return (bool_decide (category errorInfo ∈ c :: cs))
    | _ => Return (ErrorTypes.shouldRetry errorInfo || false)
    end.

Definition getRetryDelay (error : JSValue) (attempt : Z) (policy : RetryPolicy)
  : Completion Z :=
  errorInfo <- ErrorHandler.parse error no_context;;
  match retryAfter errorInfo with
  | Some (Num z) => if z =? 0 then Return (calculateDelay attempt policy) else Return z
  | _ => Return (calculateDelay attempt policy)
  end.

End WithPlatform.
End RetryPolicyHelper.

(** ** Effects *)

Record World : Type := {
  exchanges : list (string * RequestInit);
  waits : list Z;
  warnings : list (string * string * Z)
}.

Definition idle : World := {| exchanges := []; waits := []; warnings := [] |}.

Definition M (A : Type) : Type := World -> Completion A * World.

Module IO.

Definition ret {A} (a : A) : M A := fun w => (Return a, w).

Definition throw {A} (e : JSValue) : M A := fun w => (Throw e, w).

Definition bind {A B} (c : M A) (k : A -> M B) : M B :=
  fun w =>
    match c w with
    | (Return a, w') => k a w'
    | (Throw e, w') => (Throw e, w')
    end.

Definition lift {A} (c : Completion A) : M A := fun w => (c, w).

(** [try { c } catch (error) { handler }]. *)
Definition try_catch {A} (c : M A) (handler : JSValue -> M A) : M A :=
  fun w =>
    match c w with
    | (Return a, w') => (Return a, w')
    | (Throw e, w') => handler e w'
    end.

(** [await fetch(url, init)]; an exchange that is still pending when the
    abort signal fires is rejected with [AbortError]. *)
Definition fetch `{Platform} (url : string) (init : RequestInit) : M Response :=
  fun w =>
    let w' := {| exchanges := exchanges w ++ [(url, init)];
                 waits := waits w; warnings := warnings w |} in
    match transport (length (exchanges w)) url init with
    | Resolves r => (Return r, w')
    | Rejects e => (Throw e, w')
    | Pending => (Throw AbortError, w')
    end.

(** [await this.delay(ms)]. *)
Definition delay (ms : Z) : M unit :=
  fun w => (Return tt, {| exchanges := exchanges w; waits := waits w ++ [ms];
                          warnings := warnings w |}).

(** [this.logger.warn(message, {url, delay})]. *)
Definition warn (message url : string) (ms : Z) : M unit :=
  fun w => (Return tt, {| exchanges := exchanges w; waits := waits w;
                          warnings := warnings w ++ [(message, url, ms)] |}).

End IO.

Declare Scope io_scope.
Delimit Scope io_scope with io.
Notation "x <- c ;; k" := (IO.bind c (fun x => k))
  (at level 100, c at next level, right associativity) : io_scope.

(** ** [HttpClient.ts] *)

Definition method_name (m : Method) : string :=
  match m with
  | GET => "GET" | POST => "POST" | PUT => "PUT" | DELETE => "DELETE" | PATCH => "PATCH"
  end.

Definition decimal (z : Z) : string := NilZero.string_of_int (Z.to_int z).

(** [Partial<HttpRequestConfig>]. *)
Record PartialConfig : Type := {
  with_url : option string;
  with_method : option Method;
  with_headers : option (gmap string string);
  with_body : option JSValue;
  with_timeout : option Z;
  with_retryPolicy : option RetryPolicy
}.

Definition no_overrides : PartialConfig :=
  {| with_url := None; with_method := None; with_headers := None;
     with_body := None; with_timeout := None; with_retryPolicy := None |}.

(** [{...base, ...overrides}]. *)
Definition spread (base : HttpRequestConfig) (overrides : PartialConfig)
  : HttpRequestConfig :=
  {| url := default (url base) (with_url overrides);
     method := default (method base) (with_method overrides);
     headers := from_option Some (headers base) (with_headers overrides);
     body := default (body base) (with_body overrides);
     timeout := from_option Some (timeout base) (with_timeout overrides);
     retryPolicy := from_option Some (retryPolicy base) (with_retryPolicy overrides) |}.

Module HttpClient.

Record HttpClientConfig : Type := {
  baseUrl : option string;
  timeout : option Z;
  defaultHeaders : option (gmap string string);
  retryPolicy : option RetryPolicy
}.

Record HttpClient : Type := {
  config : HttpClientConfig;
  interceptors : list IHttpInterceptor
}.

Definition no_config : HttpClientConfig :=
  {| baseUrl := None; timeout := None; defaultHeaders := None; retryPolicy := None |}.

(** The constructor: the caller's settings spread over the built-in ones.
    [None] is a key that the caller's object does not have, which keeps the
    built-in value.  A key that is there with the value [undefined] would
    erase the built-in value; such an object is not a value of
    [HttpClientConfig]. *)
Definition new (cfg : HttpClientConfig) : HttpClient :=
  {| config :=
       {| baseUrl := baseUrl cfg;
          timeout := Some (default 30000 (timeout cfg));
          defaultHeaders :=
            Some (default
                    (<["Content-Type" := "application/json"]>
                       (<["Accept" := "application/json"]> ∅))
                    (defaultHeaders cfg));
          retryPolicy := Some (default DefaultRetryPolicy (retryPolicy cfg)) |};
     interceptors := [] |}.

Definition addInterceptor (this : HttpClient) (interceptor : IHttpInterceptor)
  : HttpClient :=
  {| config := config this; interceptors := interceptors this ++ [interceptor] |}.

Definition buildRequestConfig (this : HttpClient) (cfg : HttpRequestConfig)
  : HttpRequestConfig :=
  let url :=
    if JS.startsWith (HttpInterceptor.url cfg) "http" then HttpInterceptor.url cfg
    else default EmptyString (baseUrl (config this)) +:+ HttpInterceptor.url cfg in
  {| HttpInterceptor.url := url;
     method := method cfg;
     headers := Some (default ∅ (headers cfg) ∪ default ∅ (defaultHeaders (config this)));
     body := body cfg;
     HttpInterceptor.timeout :=
       match HttpInterceptor.timeout cfg with
       | Some t => if t =? 0 then timeout (config this) else Some t
       | None => timeout (config this)
       end;
     HttpInterceptor.retryPolicy :=
       match HttpInterceptor.retryPolicy cfg with
       | Some p => Some p
       | None => retryPolicy (config this)
       end |}.

Fixpoint applyRequestInterceptors (ics : list IHttpInterceptor)
  (cfg : HttpRequestConfig) : Completion HttpRequestConfig :=
  match ics with
  | [] => Return cfg
  | interceptor :: rest =>
      match onRequest interceptor with
      | Some hook => cfg' <- hook cfg;; applyRequestInterceptors rest cfg'
      | None => applyRequestInterceptors rest cfg
      end
  end.

Fixpoint applyResponseInterceptors (ics : list IHttpInterceptor)
  (response : HttpResponse) : Completion HttpResponse :=
  match ics with
  | [] => Return response
  | interceptor :: rest =>
      match onResponse interceptor with
      | Some hook => response' <- hook response;; applyResponseInterceptors rest response'
      | None => applyResponseInterceptors rest response
      end
  end.

Definition parseResponse (response : Response) : Completion JSValue :=
  let fallback :=
    match json response with
    | Return v => Return v
    | Throw _ => Return (JStr (text response))
    end in
  match fetched_headers response !! "content-type" with
  | Some contentType =>
      if JS.includes contentType "application/json" then json response else fallback
  | None => fallback
  end.

Definition timeoutError : JSValue :=
  JObj [("message", JStr "Request timeout"); ("code", JStr "TIMEOUT");
        ("status", JNum (Num 408))].

Definition isAbort (error : JSValue) : bool :=
  JS.truthy error && JS.typeof_object error && JS.has "name" error
  && JS.eq_str (JS.opt error "name") "AbortError".

Section WithPlatform.
Context `{Platform}.
Local Open Scope io_scope.

(** The [RequestInit] that [executeRequest] hands to [fetch]. *)
Definition fetchConfig (cfg : HttpRequestConfig) : Completion RequestInit :=
  let init := {| init_method := method cfg;
                 init_headers := headers cfg;
                 signal := HttpInterceptor.timeout cfg;
                 init_body := None |} in
  if JS.truthy (body cfg) && negb (bool_decide (method cfg = GET)) then
    (serialized <- (if JS.typeof_string (body cfg) then Return (body cfg)
                    else JSON_stringify (body cfg));;
     Return {| init_method := init_method init;
               init_headers := init_headers init;
               signal := signal init;
               init_body := Some serialized |})%js
  else Return init.

Definition executeRequest (cfg : HttpRequestConfig) : M HttpResponse :=
  IO.try_catch
    (init <- IO.lift (fetchConfig cfg);;
     response <- IO.fetch (HttpInterceptor.url cfg) init;;
     if negb (ok response) then
       parsed <- IO.lift (parseResponse response);;
       IO.throw (JObj [("status", JNum (Num (fetched_status response)));
                       ("statusText", JStr (fetched_statusText response));
                       ("response", parsed)])
     else
       parsed <- IO.lift (parseResponse response);;
       IO.ret {| data := parsed;
                 status := fetched_status response;
                 statusText := fetched_statusText response;
                 response_headers := fetched_headers response;
                 HttpInterceptor.config := cfg |})
    (fun error => if isAbort error then IO.throw timeoutError else IO.throw error).

(** One pass through the body of the [try] block of [request]. *)
Definition attemptOnce (this : HttpClient) (fullConfig : HttpRequestConfig)
  : M JSValue :=
  interceptedConfig <- IO.lift (applyRequestInterceptors (interceptors this) fullConfig);;
  response <- executeRequest interceptedConfig;;
  interceptedResponse <- IO.lift (applyResponseInterceptors (interceptors this) response);;
  IO.ret (data interceptedResponse).

(** The statements after the loop of [request]. *)
Definition allRetriesFailed (fullConfig : HttpRequestConfig) (lastError : JSValue)
  : M JSValue :=
  errorInfo <- IO.lift (ErrorHandler.parse lastError
                          {| service := Some "HttpClient";
                             operation := Some (method_name (method fullConfig));
                             entity := None; recordId := None; userId := None;
                             timestamp := None; additionalData := None |});;
  IO.throw lastError.

(** The loop of [request], from [attempt] on.  The loop runs at most
    [maxAttempts] times, and [fuel] bounds the passes that are left. *)
Fixpoint attempts (this : HttpClient) (fullConfig : HttpRequestConfig)
  (policy : RetryPolicy) (fuel : nat) (attempt : Z) (lastError : JSValue)
  : M JSValue :=
  match fuel with
  | O => allRetriesFailed fullConfig lastError
  | S fuel' =>
      if attempt <=? maxAttempts policy then
        IO.try_catch (attemptOnce this fullConfig)
          (fun error =>
             retry <- IO.lift (RetryPolicyHelper.shouldRetry error attempt policy);;
             if negb retry then IO.throw error
             else
               ms <- IO.lift (RetryPolicyHelper.getRetryDelay error attempt policy);;
               _ <- IO.warn ("Request failed, retrying (" +:+ decimal attempt +:+ "/"
                             +:+ decimal (maxAttempts policy) +:+ ")")
                            (HttpInterceptor.url fullConfig) ms;;
               _ <- IO.delay ms;;
               attempts this fullConfig policy fuel' (attempt + 1) error)
      else allRetriesFailed fullConfig lastError
  end.

Definition resolvePolicy (this : HttpClient) (fullConfig : HttpRequestConfig)
  : RetryPolicy :=
  match HttpInterceptor.retryPolicy fullConfig with
  | Some p => p
  | None => default DefaultRetryPolicy (retryPolicy (config this))
  end.

Definition request (this : HttpClient) (requestConfig : HttpRequestConfig)
  : M JSValue :=
  let fullConfig := buildRequestConfig this requestConfig in
  let retryPolicy := resolvePolicy this fullConfig in
  attempts this fullConfig retryPolicy (Z.to_nat (maxAttempts retryPolicy)) 1 JUndefined.

Definition bare (url : string) (m : Method) (data : JSValue) : HttpRequestConfig :=
  {| HttpInterceptor.url := url; method := m; headers := None; body := data;
     HttpInterceptor.timeout := None; HttpInterceptor.retryPolicy := None |}.

Definition get (this : HttpClient) (url : string) (overrides : PartialConfig)
  : M JSValue :=
  request this (spread (bare url GET JUndefined) overrides).

Definition post (this : HttpClient) (url : string) (data : JSValue)
  (overrides : PartialConfig) : M JSValue :=
  request this (spread (bare url POST data) overrides).

Definition put (this : HttpClient) (url : string) (data : JSValue)
  (overrides : PartialConfig) : M JSValue :=
  request this (spread (bare url PUT data) overrides).

Definition delete (this : HttpClient) (url : string) (overrides : PartialConfig)
  : M JSValue :=
  request this (spread (bare url DELETE JUndefined) overrides).

Definition patch (this : HttpClient) (url : string) (data : JSValue)
  (overrides : PartialConfig) : M JSValue :=
  request this (spread (bare url PATCH data) overrides).

End WithPlatform.
End HttpClient.


(** ** [iHubService.ts]

    The service that calls the client.  Its logger only observes and is
    left out; [encodeURIComponent] is the runtime's and is a parameter of
    the functions that use it. *)

Module iHubService.

Record iHubConfig : Type := {
  baseUrl : string;
  apiKey : string;
  timeout : Z;
  retryAttempts : Z;
  headers : option (gmap string string)
}.

(** [Partial<iHubConfig>]. *)
Record PartialiHubConfig : Type := {
  set_baseUrl : option string;
  set_apiKey : option string;
  set_timeout : option Z;
  set_retryAttempts : option Z;
  set_headers : option (gmap string string)
}.

Definition no_settings : PartialiHubConfig :=
  {| set_baseUrl := None; set_apiKey := None; set_timeout := None;
     set_retryAttempts := None; set_headers := None |}.

(** [{...base, ...settings}]. *)
Definition merge (base : iHubConfig) (settings : PartialiHubConfig) : iHubConfig :=
  {| baseUrl := default (baseUrl base) (set_baseUrl settings);
     apiKey := default (apiKey base) (set_apiKey settings);
     timeout := default (timeout base) (set_timeout settings);
     retryAttempts := default (retryAttempts base) (set_retryAttempts settings);
     headers := from_option Some (headers base) (set_headers settings) |}.

(** The values that the constructor writes before it spreads the caller's
    settings over them. *)
Definition initial : iHubConfig :=
  {| baseUrl := EmptyString; apiKey := EmptyString; timeout := 30000;
     retryAttempts := 3; headers := None |}.

(** The configuration of the HTTP client, as the constructor and
    [updateConfig] both build it. *)
Definition httpConfig (cfg : iHubConfig) : HttpClient.HttpClientConfig :=
  let standard : gmap string string :=
    <["Content-Type" := "application/json"]> (<["Accept" := "application/json"]> ∅) in
  {| HttpClient.baseUrl := Some (baseUrl cfg);
     HttpClient.timeout := Some (timeout cfg);
     HttpClient.defaultHeaders :=
       Some (if String.eqb (apiKey cfg) EmptyString then standard
             else <["Authorization" := "Bearer " +:+ apiKey cfg]> standard);
     HttpClient.retryPolicy :=
       Some {| maxAttempts := if retryAttempts cfg =? 0 then 3 else retryAttempts cfg;
               baseDelay := 1000;
               maxDelay := 10000;
               exponentialBackoff := true;
               retryableErrors := None |} |}.

Record iHubService : Type := {
  config : iHubConfig;
  httpClient : HttpClient.HttpClient
}.

Definition new (settings : PartialiHubConfig) : iHubService :=
  let cfg := merge initial settings in
  {| config := cfg; httpClient := HttpClient.new (httpConfig cfg) |}.

Definition given_text (o : option string) : bool :=
  match o with Some s => negb (String.eqb s EmptyString) | None => false end.

Definition given_number (o : option Z) : bool :=
  match o with Some n => negb (n =? 0) | None => false end.

Definition updateConfig (this : iHubService) (settings : PartialiHubConfig)
  : iHubService :=
  let cfg := merge (config this) settings in
  {| config := cfg;
     httpClient :=
       if given_text (set_baseUrl settings) || given_number (set_timeout settings)
          || given_number (set_retryAttempts settings)
       then HttpClient.new (httpConfig cfg)
       else httpClient this |}.

Inductive SortOrder : Type := asc | desc.

Record iHubQueryOptions : Type := {
  filters : JSValue;
  page : option Z;
  pageSize : option Z;
  sortBy : option string;
  sortOrder : option SortOrder;
  fields : option (list string)
}.

(** [parts.join(separator)]. *)
Fixpoint join (separator : string) (parts : list string) : string :=
  match parts with
  | [] => EmptyString
  | [part] => part
  | part :: rest => part +:+ separator +:+ join separator rest
  end.

(** How a template literal prints what [JSON.stringify] returned. *)
Definition printed (v : JSValue) : string :=
  match v with
  | JUndefined => "undefined"
  | JNull => "null"
  | JBool b => if b then "true" else "false"
  | JNum (Num z) => decimal z
  | JNum NaN => "NaN"
  | JStr s => s
  | JObj _ => "[object Object]"
  end.

Definition sortOrder_name (o : SortOrder) : string :=
  match o with asc => "asc" | desc => "desc" end.

Section WithPlatform.
Context `{Platform}.
Context (encodeURIComponent : string -> string).
Local Open Scope io_scope.

Definition formatResponse (response : JSValue) : Completion JSValue :=
  (success <- JS.dot response "success";;
   match success with
   | JUndefined =>
       Return (JObj [("success", JBool true);
                     ("data", JS.or (JS.opt response "data") response);
                     ("message", JS.or (JS.opt response "message") (JStr "Success"));
                     ("statusCode", JS.or (JS.opt response "status") (JNum (Num 200)));
                     ("timestamp", JStr now)])
   | _ => Return response
   end)%js.

(** The parameters of the query, in the order in which they are pushed. *)
Definition queryParams (options : iHubQueryOptions) : Completion (list string) :=
  (first <- (if JS.truthy (filters options) then
               serialized <- JSON_stringify (filters options);;
               Return ["filters=" +:+ encodeURIComponent (printed serialized)]
             else Return []);;
   Return (first
           ++ (if given_number (page options)
               then ["page=" +:+ decimal (default 0 (page options))] else [])
           ++ (if given_number (pageSize options)
               then ["pageSize=" +:+ decimal (default 0 (pageSize options))] else [])
           ++ (if given_text (sortBy options)
               then ["sortBy=" +:+ default EmptyString (sortBy options)] else [])
           ++ match sortOrder options with
              | Some o => ["sortOrder=" +:+ sortOrder_name o]
              | None => []
              end
           ++ match fields options with
              | Some names => ["fields=" +:+ join "," names]
              | None => []
              end)%list)%js.

Definition buildQueryString (options : option iHubQueryOptions) : Completion string :=
  match options with
  | None => Return EmptyString
  | Some options =>
      (params <- queryParams options;;
       Return (match params with
               | [] => EmptyString
               | _ => "?" +:+ join "&" params
               end))%js
  end.

(** The [try]/[catch] that every operation of the service repeats: the
    error is classified for the log and thrown again. *)
Definition guarded (operation entity : string) (work : M JSValue) : M JSValue :=
  IO.try_catch work
    (fun error =>
       errorInfo <- IO.lift (ErrorHandler.parse error
                               {| service := Some "iHubService";
                                  operation := Some operation;
                                  entity := Some entity;
                                  recordId := None; userId := None;
                                  timestamp := None; additionalData := None |});;
       IO.throw error).

Definition fetchData (this : iHubService) (endpoint : string)
    (options : option iHubQueryOptions) : M JSValue :=
  guarded "fetchData" endpoint
    (queryString <- IO.lift (buildQueryString options);;
     response <- HttpClient.get (httpClient this) (endpoint +:+ queryString) no_overrides;;
     IO.lift (formatResponse response)).

Definition postData (this : iHubService) (endpoint : string) (data : JSValue)
  : M JSValue :=
  guarded "postData" endpoint
    (response <- HttpClient.post (httpClient this) endpoint data no_overrides;;
     IO.lift (formatResponse response)).

Definition updateData (this : iHubService) (endpoint : string) (data : JSValue)
  : M JSValue :=
  guarded "updateData" endpoint
    (response <- HttpClient.put (httpClient this) endpoint data no_overrides;;
     IO.lift (formatResponse response)).

Definition deleteData (this : iHubService) (endpoint : string) : M JSValue :=
  guarded "deleteData" endpoint
    (response <- HttpClient.delete (httpClient this) endpoint no_overrides;;
     IO.lift (formatResponse response)).

Definition executeAction (this : iHubService) (actionName : string)
    (parameters : JSValue) : M JSValue :=
  guarded "executeAction" actionName
    (response <- HttpClient.post (httpClient this) ("/api/actions/" +:+ actionName)
                   (JS.or parameters (JObj [])) no_overrides;;
     IO.lift (formatResponse response)).

End WithPlatform.
End iHubService.


(** ** A reference runtime

    A concrete [Platform], for running the client on given inputs: a
    serializer in the manner of [JSON.stringify], a clock that stands
    still, and a transport that answers the n-th exchange from a script. *)

Module Reference.

Definition hex_digit (n : nat) : ascii :=
  ascii_of_nat (if (n <? 10)%nat then 48 + n else 87 + n).

Definition backslash : ascii := ascii_of_nat 92.
Definition dquote : ascii := ascii_of_nat 34.

Definition escape (c : ascii) : string :=
  let n := nat_of_ascii c in
  if (n =? 34)%nat then String backslash (String c EmptyString)
  else if (n =? 92)%nat then String backslash (String backslash EmptyString)
  else if (n =? 8)%nat then String backslash "b"
  else if (n =? 9)%nat then String backslash "t"
  else if (n =? 10)%nat then String backslash "n"
  else if (n =? 12)%nat then String backslash "f"
  else if (n =? 13)%nat then String backslash "r"
  else if (n <? 32)%nat then
    String backslash "u00"
    +:+ String (hex_digit (n / 16)) (String (hex_digit (n mod 16)) EmptyString)
  else String c EmptyString.

Fixpoint escaped (s : string) : string :=
  match s with
  | EmptyString => EmptyString
  | String c s' => escape c +:+ escaped s'
  end.

Definition quote (s : string) : string :=
  String dquote (escaped s) +:+ String dquote EmptyString.

Fixpoint commas (parts : list string) : string :=
  match parts with
  | [] => EmptyString
  | [p] => p
  | p :: rest => p +:+ "," +:+ commas rest
  end.

(** [None] stands for [undefined]; a property whose value is [undefined]
    is left out. *)
Fixpoint stringify (v : JSValue) : option string :=
  match v with
  | JUndefined => None
  | JNull => Some "null"
  | JBool b => Some (if b then "true" else "false")
  | JNum (Num z) => Some (decimal z)
  | JNum NaN => Some "null"
  | JStr s => Some (quote s)
  | JObj fields =>
      let members :=
        (fix members (fs : list (string * JSValue)) : list string :=
           match fs with
           | [] => []
           | (k, x) :: fs' =>
               match stringify x with
               | Some s => (quote k +:+ ":" +:+ s) :: members fs'
               | None => members fs'
               end
           end) fields in
      Some ("{" +:+ commas members +:+ "}")
  end.

Definition platform (script : nat -> FetchOutcome) : Platform :=
  {| JSON_stringify v := Return (from_option JStr JUndefined (stringify v));
     transport n _ _ := script n;
     now := "2024-01-01T00:00:00.000Z" |}.

(** A reply whose body is the JSON text of [parsed]. *)
Definition reply (code : Z) (reason : string) (parsed : JSValue) : Response :=
  {| ok := (200 <=? code) && (code <=? 299);
     fetched_status := code;
     fetched_statusText := reason;
     fetched_headers := {[ "content-type" := "application/json" ]};
     text := default EmptyString (stringify parsed);
     json := Return parsed |}.

End Reference.


(** * The vocabulary of the properties *)

(** Whether the classifier's delay is one that [getRetryDelay] takes: the
    truth value of [errorInfo.retryAfter]. *)
Definition hint (info : ErrorInfo) : option Z :=
  match retryAfter info with
  | Some (Num z) => if z =? 0 then None else Some z
  | _ => None
  end.

(** What the policy makes of a classification when attempts are left. *)
Definition accepts (policy : RetryPolicy) (info : ErrorInfo) : bool :=
  match retryableErrors policy with
  | Some (c :: cs) => bool_decide (category info ∈ c :: cs)
  | _ => ErrorTypes.shouldRetry info
  end.

(** The categories for which the classifier itself advises a retry. *)
Definition transient (c : ErrorCategory) : bool :=
  bool_decide (c = NETWORK) || bool_decide (c = SYSTEM).

(** The whitelist read as a filter on the classifier's advice: whatever the
    policy retries, the classifier would retry as well. *)
Definition whitelist_only_narrows `{Platform} (policy : RetryPolicy) : Prop :=
  forall error attempt,
    RetryPolicyHelper.shouldRetry error attempt policy = Return true ->
    ErrorHandler.shouldRetry error = Return true.

Import HttpClient.

(** The merge of the headers read as blind to letter case: once the caller
    sets a header, no other spelling of its name is left in the result. *)
Definition merges_ignoring_case (this : HttpClient) (cfg : HttpRequestConfig) : Prop :=
  forall merged k k' v,
    headers (buildRequestConfig this cfg) = Some merged ->
    default ∅ (headers cfg) !! k = Some v ->
    k' <> k ->
    JS.toLowerCase k' = JS.toLowerCase k ->
    merged !! k' = None.

(** The configuration [cfg] with the body [b]. *)
Definition set_body (cfg : HttpRequestConfig) (b : JSValue) : HttpRequestConfig :=
  {| url := url cfg; method := method cfg; headers := headers cfg; body := b;
     HttpInterceptor.timeout := HttpInterceptor.timeout cfg;
     HttpInterceptor.retryPolicy := HttpInterceptor.retryPolicy cfg |}.

(** The world after one more exchange. *)
Definition logged (w : World) (url : string) (init : RequestInit) : World :=
  {| exchanges := exchanges w ++ [(url, init)]; waits := waits w;
     warnings := warnings w |}.

(** The [catch] clause of [executeRequest]. *)
Definition rethrow {A} (error : JSValue) : Completion A :=
  if isAbort error then Throw timeoutError else Throw error.

(** What [executeRequest] makes of the outcome of its exchange. *)
Definition settle (cfg : HttpRequestConfig) (outcome : FetchOutcome)
  : Completion HttpResponse :=
  match outcome with
  | Resolves r =>
      match parseResponse r with
      | Return parsed =>
          if negb (ok r) then
            rethrow (JObj [("status", JNum (Num (fetched_status r)));
                           ("statusText", JStr (fetched_statusText r));
                           ("response", parsed)])
          else Return {| data := parsed;
                         status := fetched_status r;
                         statusText := fetched_statusText r;
                         response_headers := fetched_headers r;
                         HttpInterceptor.config := cfg |}
      | Throw e => rethrow e
      end
  | Rejects e => rethrow e
  | Pending => rethrow AbortError
  end.

(** The claim that a request whose every attempt fails uses up the whole
    budget of attempts. *)
Definition runs_maxAttempts_times `{Platform} (this : HttpClient)
    (cfg : HttpRequestConfig) : Prop :=
  exists e w,
    request this cfg idle = (Throw e, w)
    /\ length (exchanges w)
       = Z.to_nat (maxAttempts (resolvePolicy this (buildRequestConfig this cfg))).

(** An interceptor, and a client, with the [onError] hooks taken away. *)
Definition without_onError (interceptor : IHttpInterceptor) : IHttpInterceptor :=
  {| onRequest := onRequest interceptor;
     onResponse := onResponse interceptor;
     onError := None |}.

Definition forget_onError (this : HttpClient) : HttpClient :=
  {| config := config this;
     interceptors := map without_onError (interceptors this) |}.


(** The category that goes with an HTTP status: the order of the tests of
    [categorize] on an error that carries nothing but its status. *)
Definition byStatus (n : Z) : ErrorCategory :=
  if n =? 401 then AUTHENTICATION
  else if n =? 403 then AUTHORIZATION
  else if n =? 400 then VALIDATION
  else if (400 <=? n) && (n <? 500) then BUSINESS
  else if (500 <=? n) && (n <? 600) then SYSTEM
  else UNKNOWN.

(** The error that the executor raises for a response that is not ok. *)
Definition httpError (r : Response) (parsed : JSValue) : JSValue :=
  JObj [("status", JNum (Num (fetched_status r)));
        ("statusText", JStr (fetched_statusText r));
        ("response", parsed)].

(** A value that is a string or is falsy: what [isNetworkError] and
    [isValidationError] can take for a message or a code. *)
Definition stringish (v : JSValue) : bool :=
  negb (JS.truthy v) || JS.typeof_string v.

(** The words by which [isNetworkError] knows a message. *)
Definition network_wording (message : string) : bool :=
  let m := JS.toLowerCase message in
  JS.includes m "network" || JS.includes m "fetch"
  || JS.includes m "connection" || JS.includes m "timeout".

(** The envelope that the executor builds from an ok response. *)
Definition envelope (cfg : HttpRequestConfig) (r : Response) (parsed : JSValue)
  : HttpResponse :=
  {| data := parsed;
     status := fetched_status r;
     statusText := fetched_statusText r;
     response_headers := fetched_headers r;
     HttpInterceptor.config := cfg |}.

(** The hook of an interceptor as a step of the chain: no hook, no change. *)
Definition requestStep (interceptor : IHttpInterceptor) (cfg : HttpRequestConfig)
  : Completion HttpRequestConfig :=
  match onRequest interceptor with
  | Some hook => hook cfg
  | None => Return cfg
  end.

Definition responseStep (interceptor : IHttpInterceptor) (response : HttpResponse)
  : Completion HttpResponse :=
  match onResponse interceptor with
  | Some hook => hook response
  | None => Return response
  end.


(** * Properties *)

(** ** The classifier and the retry policy *)

Lemma bind_Return {A B} (c : Completion A) (k : A -> Completion B) (b : B) :
  bind c k = Return b -> exists a, c = Return a /\ k a = Return b.
Proof. destruct c as [a|e]; simpl; [eauto | discriminate]. Qed.


Section ClassifierFacts.
Context `{Platform}.

Lemma parse_Return error ctx info :
  ErrorHandler.parse error ctx = Return info ->
  ErrorHandler.categorize error = Return (category info)
  /\ ErrorHandler.shouldRetry error = Return (ErrorTypes.shouldRetry info)
  /\ ErrorHandler.getRetryAfter error = Return (retryAfter info)
  /\ statusCode info = ErrorHandler.extractStatusCode error
  /\ errorCode info = ErrorHandler.extractErrorCode error
  /\ originalError info = error.
Proof.
  unfold ErrorHandler.parse. intros Hp.
  apply bind_Return in Hp as (c & Hc & Hp).
  apply bind_Return in Hp as (m & Hm & Hp).
  apply bind_Return in Hp as (r & Hr & Hp).
  apply bind_Return in Hp as (a & Ha & Hp).
  injection Hp as <-. simpl. by rewrite Hc, Hr, Ha.
Qed.

Lemma shouldRetry_by_category error c :
  ErrorHandler.categorize error = Return c ->
  ErrorHandler.shouldRetry error =
    Return (transient c || JS.eq_num (ErrorHandler.extractStatusCode error) 429).
Proof.
  intros Hc. unfold ErrorHandler.shouldRetry, transient. rewrite Hc. simpl.
  destruct (bool_decide (c = NETWORK) || bool_decide (c = SYSTEM)); simpl; [done|].
  by destruct (JS.eq_num _ 429).
Qed.

Lemma transient_is_retried info error ctx :
  ErrorHandler.parse error ctx = Return info ->
  transient (category info) = true -> ErrorTypes.shouldRetry info = true.
Proof.
  intros Hp Ht. apply parse_Return in Hp as (Hc & Hr & _).
  rewrite (shouldRetry_by_category _ _ Hc), Ht in Hr. simpl in Hr. congruence.
Qed.

Lemma shouldRetry_decision error attempt policy info :
  ErrorHandler.parse error no_context = Return info ->
  RetryPolicyHelper.shouldRetry error attempt policy =
    Return (if maxAttempts policy <=? attempt then false else accepts policy info).
Proof.
  intros Hp. unfold RetryPolicyHelper.shouldRetry, accepts.
  destruct (maxAttempts policy <=? attempt); [done|].
  rewrite Hp. simpl. destruct (retryableErrors policy) as [[|c cs]|]; simpl;
    try done; by rewrite orb_false_r.
Qed.

Lemma shouldRetry_true error attempt policy :
  RetryPolicyHelper.shouldRetry error attempt policy = Return true ->
  attempt < maxAttempts policy
  /\ exists info, ErrorHandler.parse error no_context = Return info
                  /\ accepts policy info = true.
Proof.
  unfold RetryPolicyHelper.shouldRetry. intros Hs.
  destruct (Z.leb_spec (maxAttempts policy) attempt) as [Hle|Hlt]; [discriminate|].
  split; [done|].
  destruct (ErrorHandler.parse error no_context) as [info|e] eqn:Hp; [|discriminate].
  exists info. split; [done|]. simpl in Hs. unfold accepts.
  destruct (retryableErrors policy) as [[|c cs]|]; simpl in *;
    rewrite ?orb_false_r in Hs; congruence.
Qed.

Lemma getRetryDelay_decision error attempt policy info :
  ErrorHandler.parse error no_context = Return info ->
  RetryPolicyHelper.getRetryDelay error attempt policy =
    Return (default (RetryPolicyHelper.calculateDelay attempt policy) (hint info)).
Proof.
  intros Hp. unfold RetryPolicyHelper.getRetryDelay, hint. rewrite Hp. simpl.
  destruct (retryAfter info) as [[z|]|]; try done. by destruct (z =? 0).
Qed.

End ClassifierFacts.

(** C7. When the classifier's delay does not apply, the delay of an attempt
    (counted from 1) is [min (baseDelay * 2^(attempt-1)) maxDelay] under
    exponential back-off and [baseDelay] otherwise; with exponential
    back-off, base 1000 and cap 10000 the attempts 1 to 5 wait 1000, 2000,
    4000, 8000 and 10000 ms. *)
Theorem backoff_delay_without_hint :
  (forall `{Platform} error attempt policy info,
      1 <= attempt ->
      ErrorHandler.parse error no_context = Return info ->
      hint info = None ->
      RetryPolicyHelper.getRetryDelay error attempt policy =
        Return (if exponentialBackoff policy
                then Z.min (baseDelay policy * 2 ^ (attempt - 1)) (maxDelay policy)
                else baseDelay policy))
  /\ (forall n whitelist,
        let policy := {| maxAttempts := n; baseDelay := 1000; maxDelay := 10000;
                         exponentialBackoff := true;
                         retryableErrors := whitelist |} in
        map (fun attempt => RetryPolicyHelper.calculateDelay attempt policy)
            [1; 2; 3; 4; 5]
        = [1000; 2000; 4000; 8000; 10000]).
Proof.
  split.
  - intros pf error attempt policy info _ Hp Hh.
    rewrite (getRetryDelay_decision _ _ _ _ Hp), Hh. simpl.
    unfold RetryPolicyHelper.calculateDelay.
    by destruct (exponentialBackoff policy).
  - intros n whitelist. reflexivity.
Qed.

Lemma backoff_delay_without_hint_witness :
  RetryPolicyHelper.getRetryDelay (H := Reference.platform (fun _ => Pending))
    (JObj [("status", JNum (Num 404))]) 3
    {| maxAttempts := 5; baseDelay := 1000; maxDelay := 10000;
       exponentialBackoff := true; retryableErrors := Some [BUSINESS] |}
  = Return 4000.
Proof.
  eapply (proj1 backoff_delay_without_hint (Reference.platform (fun _ => Pending))
            (JObj [("status", JNum (Num 404))]) 3).
  - lia.
  - vm_compute. reflexivity.
  - vm_compute. reflexivity.
Defined.

(** Where [getRetryAfter] does find a value: a classified error of status
    429 whose [retry-after], read the way the code reads it, is 2 is
    retried after exactly 2000 ms, at every attempt and under every policy;
    neither [baseDelay] nor the cap [maxDelay] enters. *)
Lemma retry_after_header_is_taken_verbatim `{Platform}
    (error : JSValue) (info : ErrorInfo) (attempt : Z) (policy : RetryPolicy) :
  ErrorHandler.parse error no_context = Return info ->
  ErrorHandler.extractStatusCode error = JNum (Num 429) ->
  ErrorHandler.retryAfterHeader error = JStr "2"
  \/ ErrorHandler.retryAfterHeader error = JNum (Num 2) ->
  RetryPolicyHelper.getRetryDelay error attempt policy = Return 2000.
Proof.
  intros Hp Hs Hh. rewrite (getRetryDelay_decision _ _ _ _ Hp).
  apply parse_Return in Hp as (_ & _ & Ha & _).
  unfold ErrorHandler.getRetryAfter in Ha. rewrite Hs in Ha. simpl in Ha.
  unfold hint. destruct Hh as [Hh|Hh]; rewrite Hh in Ha; simpl in Ha;
    injection Ha as <-; reflexivity.
Qed.

Lemma retry_after_header_is_taken_verbatim_witness :
  RetryPolicyHelper.getRetryDelay (H := Reference.platform (fun _ => Pending))
    (JObj [("status", JNum (Num 429));
           ("headers", JObj [("retry-after", JStr "2")])]) 7
    {| maxAttempts := 9; baseDelay := 100; maxDelay := 500;
       exponentialBackoff := true; retryableErrors := None |}
  = Return 2000.
Proof.
  eapply (retry_after_header_is_taken_verbatim (H := Reference.platform (fun _ => Pending))).
  - vm_compute. reflexivity.
  - reflexivity.
  - left. reflexivity.
Defined.


(** C4, as stated, fails: under the whitelist [BUSINESS] a 404 is retried,
    although the classifier advises against it. *)
Lemma whitelist_can_widen :
  ~ whitelist_only_narrows (H := Reference.platform (fun _ => Pending))
      {| maxAttempts := 3; baseDelay := 1000; maxDelay := 10000;
         exponentialBackoff := true; retryableErrors := Some [BUSINESS] |}.
Proof.
  intros Hn.
  specialize (Hn (JObj [("status", JNum (Num 404))]) 1 eq_refl).
  vm_compute in Hn. discriminate.
Qed.

(** C4, amended. Under a non-empty whitelist a retry is decided by the
    classified category alone: a retry means that attempts are left and the
    category is on the list.  The classifier then advises a retry too if
    the list holds only NETWORK and SYSTEM; and under the list [NETWORK] a
    BUSINESS failure is not retried at any attempt. *)
Theorem whitelist_decides_by_category `{Platform}
    (policy : RetryPolicy) (c : ErrorCategory) (cs : list ErrorCategory)
    (error : JSValue) (attempt : Z) :
  retryableErrors policy = Some (c :: cs) ->
  (RetryPolicyHelper.shouldRetry error attempt policy = Return true ->
   attempt < maxAttempts policy
   /\ exists info,
       ErrorHandler.parse error no_context = Return info
       /\ category info ∈ c :: cs
       /\ ((forall x, x ∈ c :: cs -> transient x = true) ->
           ErrorHandler.shouldRetry error = Return true))
  /\ (c :: cs = [NETWORK] ->
      forall info,
        ErrorHandler.parse error no_context = Return info ->
        category info = BUSINESS ->
        RetryPolicyHelper.shouldRetry error attempt policy = Return false).
Proof.
  intros Hw. split.
  - intros Hs. apply shouldRetry_true in Hs as (Hlt & info & Hp & Ha).
    split; [done|]. exists info. unfold accepts in Ha. rewrite Hw in Ha.
    apply bool_decide_eq_true in Ha. repeat split; try done.
    intros Hall. pose proof (transient_is_retried _ _ _ Hp (Hall _ Ha)) as Hr.
    apply parse_Return in Hp as (_ & -> & _). by rewrite Hr.
  - intros Hl info Hp Hb. rewrite (shouldRetry_decision _ _ _ _ Hp).
    unfold accepts. rewrite Hw, Hl, Hb.
    by destruct (maxAttempts policy <=? attempt).
Qed.

Lemma whitelist_decides_by_category_witness :
  let pf := Reference.platform (fun _ => Pending) in
  let policy := {| maxAttempts := 3; baseDelay := 1000; maxDelay := 10000;
                   exponentialBackoff := true; retryableErrors := Some [NETWORK] |} in
  ErrorHandler.shouldRetry (JObj [("message", JStr "Network down")])
    = Return true
  /\ RetryPolicyHelper.shouldRetry (H := pf) (JObj [("status", JNum (Num 404))]) 1 policy
    = Return false.
Proof.
  intros pf policy. split.
  - destruct (proj1 (whitelist_decides_by_category (H := pf) policy NETWORK []
                       (JObj [("message", JStr "Network down")]) 1 eq_refl))
      as (_ & info & _ & _ & Hr).
    + vm_compute. reflexivity.
    + apply Hr. intros x Hx. apply list_elem_of_singleton in Hx as ->. reflexivity.
  - eapply (proj2 (whitelist_decides_by_category (H := pf) policy NETWORK []
                     (JObj [("status", JNum (Num 404))]) 1 eq_refl) eq_refl).
    + vm_compute. reflexivity.
    + reflexivity.
Defined.

(** C5, at an input where the code departs from it. An error object whose
    [code] is a number, as the platform's Web API errors have it, makes
    [parse] raise a [TypeError] instead of returning a classification: the
    number is truthy, so [(error.code || "")] is the number, which has no
    [toLowerCase]. *)
Theorem classify_raises_on_numeric_code `{Platform} (ctx : ErrorContext) :
  ErrorHandler.parse
    (JObj [("message", JStr "Entity does not exist");
           ("code", JNum (Num 2147746581))]) ctx
  = Throw (JS.TypeError "toLowerCase is not a function").
Proof. reflexivity. Qed.

(** The same for a [message] that is not a string. *)
Lemma classify_raises_on_numeric_message `{Platform} (ctx : ErrorContext) :
  ErrorHandler.parse (JObj [("message", JNum (Num 42))]) ctx
  = Throw (JS.TypeError "toLowerCase is not a function").
Proof. reflexivity. Qed.

(** Reading the message never raises. *)
Lemma extractMessage_completes `{Platform} (error : JSValue) :
  completes (ErrorHandler.extractMessage error) = true.
Proof.
  unfold ErrorHandler.extractMessage.
  destruct (JS.truthy error) eqn:Ht; simpl; [|done].
  destruct (JS.truthy (JS.opt (JS.opt error "error") "message")) eqn:Hm.
  - destruct error; try discriminate. simpl in *.
    destruct (JS.assoc "error" fields) as [[]|]; simpl in *; done.
  - destruct (JS.truthy (JS.opt error "message")) eqn:Hm'.
    + destruct error; done.
    + destruct (JS.typeof_string error); [done|].
      by destruct (JSON_stringify error).
Qed.

Lemma categorize_primitive (error : JSValue) :
  (forall fields, error <> JObj fields) ->
  ErrorHandler.categorize error = Return UNKNOWN.
Proof.
  intros Hprim.
  destruct error as [| |[|]|[z|]|s|fields]; try reflexivity.
  - unfold ErrorHandler.categorize, ErrorHandler.isNetworkError. simpl.
    by destruct (z =? 0).
  - by destruct s.
  - by destruct (Hprim fields).
Qed.

(** On [null], [undefined], booleans, numbers and strings the classifier
    does return a classification. *)
Lemma classify_primitive `{Platform} (error : JSValue) (ctx : ErrorContext) :
  (forall fields, error <> JObj fields) ->
  completes (ErrorHandler.parse error ctx) = true.
Proof.
  intros Hprim. pose proof (categorize_primitive error Hprim) as Hc.
  pose proof (extractMessage_completes error) as Hm.
  unfold ErrorHandler.parse, ErrorHandler.shouldRetry, ErrorHandler.getRetryAfter.
  rewrite Hc. simpl.
  destruct (ErrorHandler.extractMessage error); [simpl|discriminate].
  assert (ErrorHandler.extractStatusCode error = JUndefined) as ->.
  { destruct error; try reflexivity. by destruct (Hprim fields). }
  reflexivity.
Qed.

(** ** The request configuration *)


(** C9, as stated, fails: the caller's [content-type] does not replace the
    built-in [Content-Type]; both are sent. *)
Lemma header_merge_is_case_sensitive :
  ~ merges_ignoring_case (new no_config)
      {| url := "/data"; method := POST;
         headers := Some {[ "content-type" := "text/plain" ]};
         body := JStr "hello"; HttpInterceptor.timeout := None;
         HttpInterceptor.retryPolicy := None |}.
Proof.
  intros Hm.
  specialize (Hm _ "content-type" "Content-Type" "text/plain" eq_refl eq_refl).
  assert ("Content-Type" <> "content-type") as Hne by discriminate.
  specialize (Hm Hne eq_refl). vm_compute in Hm. discriminate.
Qed.

(** C9, amended. The effective headers are the client's defaults overlaid
    with the caller's, key by key and with the keys compared exactly: the
    caller's value wins for a key both have, every other default stays, and
    a caller's key that differs from a default's in letter case leaves that
    default in place beside it. *)
Theorem headers_merge_by_exact_key (this : HttpClient) (cfg : HttpRequestConfig) :
  exists merged : gmap string string,
    headers (buildRequestConfig this cfg) = Some merged
    /\ (forall k : string,
          merged !! k =
            match default ∅ (headers cfg) !! k with
            | Some v => Some v
            | None => default ∅ (defaultHeaders (config this)) !! k
            end)
    /\ (forall (k k' v v' : string),
          default ∅ (headers cfg) !! k = Some v ->
          default ∅ (defaultHeaders (config this)) !! k' = Some v' ->
          default ∅ (headers cfg) !! k' = None ->
          merged !! k = Some v /\ merged !! k' = Some v').
Proof.
  eexists. split; [reflexivity|].
  assert (forall k : string,
             (default ∅ (headers cfg) ∪ default ∅ (defaultHeaders (config this))) !! k =
               match default ∅ (headers cfg) !! k with
               | Some v => Some v
               | None => default ∅ (defaultHeaders (config this)) !! k
               end) as Hlookup.
  { intros k. rewrite lookup_union.
    destruct (default ∅ (headers cfg) !! k), (default ∅ (defaultHeaders (config this)) !! k);
      reflexivity. }
  split; [exact Hlookup|].
  intros k k' v v' Hk Hk' Hnone. rewrite !Hlookup, Hk, Hnone, Hk'. done.
Qed.

Lemma headers_merge_by_exact_key_witness :
  exists merged : gmap string string,
    headers (buildRequestConfig (new no_config)
               {| url := "/data"; method := POST;
                  headers := Some {[ "content-type" := "text/plain" ]};
                  body := JStr "hello"; HttpInterceptor.timeout := None;
                  HttpInterceptor.retryPolicy := None |}) = Some merged
    /\ merged !! "content-type" = Some "text/plain"
    /\ merged !! "Content-Type" = Some "application/json"
    /\ merged !! "Accept" = Some "application/json".
Proof.
  destruct (headers_merge_by_exact_key (new no_config)
              {| url := "/data"; method := POST;
                 headers := Some {[ "content-type" := "text/plain" ]};
                 body := JStr "hello"; HttpInterceptor.timeout := None;
                 HttpInterceptor.retryPolicy := None |})
    as (merged & Hm & Hlookup & Hboth).
  exists merged. split; [exact Hm|].
  destruct (Hboth "content-type" "Content-Type" "text/plain" "application/json")
    as [Hc Hd]; [vm_compute; reflexivity ..|].
  split; [exact Hc|]. split; [exact Hd|].
  rewrite Hlookup. vm_compute. reflexivity.
Defined.

(** ** The executor *)


Section ExecutorFacts.
Context `{Platform}.

(** Every run of the executor whose request can be written out performs
    one exchange, with the [RequestInit] of [fetchConfig], and nothing else. *)
Lemma executeRequest_world cfg init w :
  fetchConfig cfg = Return init ->
  snd (executeRequest cfg w) = logged w (url cfg) init.
Proof.
  intros Hi. unfold executeRequest, IO.try_catch, IO.bind, IO.lift, IO.fetch.
  rewrite Hi. fold (logged w (url cfg) init).
  destruct (transport _ _ _) as [r|e|]; simpl.
  - destruct (ok r); simpl; unfold IO.bind, IO.lift;
      destruct (parseResponse r); simpl; try done;
      match goal with |- context [isAbort ?e] => by destruct (isAbort e) end.
  - by destruct (isAbort e).
  - done.
Qed.

Lemma fetchConfig_GET cfg :
  method cfg = GET ->
  fetchConfig cfg = Return {| init_method := GET; init_headers := headers cfg;
                              signal := HttpInterceptor.timeout cfg;
                              init_body := None |}.
Proof.
  intros Hm. unfold fetchConfig. rewrite Hm.
  by rewrite bool_decide_eq_true_2, andb_false_r.
Qed.

End ExecutorFacts.

(** C10. A GET never carries a body to the transport: whatever [body] the
    configuration holds, the one exchange that the executor performs has a
    [RequestInit] without the property, so a GET with a body and the same
    GET without one make the same exchange. *)
Theorem get_never_sends_a_body `{Platform} (cfg : HttpRequestConfig) (w : World) :
  method cfg = GET ->
  let init := {| init_method := GET; init_headers := headers cfg;
                 signal := HttpInterceptor.timeout cfg; init_body := None |} in
  fetchConfig cfg = Return init
  /\ exchanges (snd (executeRequest cfg w)) = (exchanges w ++ [(url cfg, init)])%list
  /\ forall b : JSValue,
       exchanges (snd (executeRequest (set_body cfg b) w))
       = exchanges (snd (executeRequest (set_body cfg JUndefined) w)).
Proof.
  intros Hm init. split; [by apply fetchConfig_GET|]. split.
  - by rewrite (executeRequest_world cfg init w (fetchConfig_GET cfg Hm)).
  - intros b.
    rewrite (executeRequest_world (set_body cfg b) init w
               (fetchConfig_GET (set_body cfg b) Hm)).
    by rewrite (executeRequest_world (set_body cfg JUndefined) init w
                  (fetchConfig_GET (set_body cfg JUndefined) Hm)).
Qed.

Lemma get_never_sends_a_body_witness :
  let pf := Reference.platform (fun _ => Resolves (Reference.reply 200 "OK" (JNum (Num 1)))) in
  let cfg := {| url := "https://api.example.com/data"; method := GET;
                headers := None; body := JObj [("q", JStr "x")];
                HttpInterceptor.timeout := Some 50;
                HttpInterceptor.retryPolicy := None |} in
  exchanges (snd (executeRequest (H := pf) cfg idle))
  = [("https://api.example.com/data",
      {| init_method := GET; init_headers := None; signal := Some 50;
         init_body := None |})].
Proof.
  intros pf cfg.
  exact (proj1 (proj2 (get_never_sends_a_body (H := pf) cfg idle eq_refl))).
Defined.


Lemma executeRequest_outcome `{Platform} cfg init w :
  fetchConfig cfg = Return init ->
  executeRequest cfg w =
    (settle cfg (transport (length (exchanges w)) (url cfg) init),
     logged w (url cfg) init).
Proof.
  intros Hi. unfold executeRequest, IO.try_catch, IO.bind, IO.lift, IO.fetch, settle.
  rewrite Hi. fold (logged w (url cfg) init).
  destruct (transport _ _ _) as [r|e|]; simpl; unfold rethrow.
  - destruct (ok r); simpl; unfold IO.bind, IO.lift;
      destruct (parseResponse r); simpl; try done;
      match goal with |- context [isAbort ?e] => by destruct (isAbort e) end.
  - by destruct (isAbort e).
  - done.
Qed.


(** ** The retry loop *)

Section LoopFacts.
Context `{Platform}.

Local Open Scope io_scope.

(** One pass of the loop. *)
Lemma attempts_S this fullConfig policy fuel attempt lastError :
  attempts this fullConfig policy (S fuel) attempt lastError
  = if attempt <=? maxAttempts policy then
      IO.try_catch (attemptOnce this fullConfig)
        (fun error =>
           retry <- IO.lift (RetryPolicyHelper.shouldRetry error attempt policy);;
           if negb retry then IO.throw error
           else
             ms <- IO.lift (RetryPolicyHelper.getRetryDelay error attempt policy);;
             _ <- IO.warn ("Request failed, retrying (" +:+ decimal attempt +:+ "/"
                           +:+ decimal (maxAttempts policy) +:+ ")")
                          (url fullConfig) ms;;
             _ <- IO.delay ms;;
             attempts this fullConfig policy fuel (attempt + 1) error)
    else allRetriesFailed fullConfig lastError.
Proof. reflexivity. Qed.

(** The loop never needs more passes than [maxAttempts - attempt + 1]: the
    fuel that [request] provides is enough, and spare fuel changes nothing. *)
Lemma attempts_spare_fuel this fullConfig policy fuel :
  forall attempt lastError w,
    maxAttempts policy - attempt + 1 <= Z.of_nat fuel ->
    attempts this fullConfig policy (S fuel) attempt lastError w
    = attempts this fullConfig policy fuel attempt lastError w.
Proof.
  induction fuel as [|fuel IH]; intros attempt lastError w Hle.
  - simpl. destruct (Z.leb_spec attempt (maxAttempts policy)); [lia|done].
  - rewrite (attempts_S _ _ _ (S fuel)).
    simpl. destruct (Z.leb_spec attempt (maxAttempts policy)); [|done].
    unfold IO.try_catch. destruct (attemptOnce this fullConfig w) as [[v|e] w1]; [done|].
    unfold IO.bind at 1. unfold IO.bind at 5. unfold IO.lift at 1. unfold IO.lift at 3.
    destruct (RetryPolicyHelper.shouldRetry e attempt policy) as [[|]|]; simpl; try done.
    unfold IO.bind, IO.lift.
    destruct (RetryPolicyHelper.getRetryDelay e attempt policy) as [ms|]; simpl; [|done].
    apply IH. lia.
Qed.

Lemma attempts_all_fail this fullConfig policy cfg' init :
  applyRequestInterceptors (interceptors this) fullConfig = Return cfg' ->
  fetchConfig cfg' = Return init ->
  (forall w0, exists e info,
      fst (executeRequest cfg' w0) = Throw e
      /\ ErrorHandler.parse e no_context = Return info
      /\ accepts policy info = true) ->
  forall (k : nat) attempt lastError w,
    attempt + Z.of_nat k = maxAttempts policy ->
    exists e wN w',
      attempts this fullConfig policy (S k) attempt lastError w = (Throw e, w')
      /\ executeRequest cfg' wN = (Throw e, w')
      /\ length (exchanges wN) = (length (exchanges w) + k)%nat
      /\ length (exchanges w') = (length (exchanges w) + S k)%nat
      /\ length (waits w') = (length (waits w) + k)%nat.
Proof.
  intros Hreq Hinit Hfail.
  induction k as [|k IH]; intros attempt lastError w Hsum.
  - destruct (Hfail w) as (e & info & He & Hp & Ha).
    destruct (executeRequest cfg' w) as [r w1] eqn:Hex. simpl in He. subst r.
    exists e, w, w1. simpl.
    destruct (Z.leb_spec attempt (maxAttempts policy)); [|lia].
    unfold IO.try_catch, attemptOnce. unfold IO.bind at 1, IO.lift at 1.
    rewrite Hreq. unfold IO.bind at 1. rewrite Hex.
    unfold IO.bind, IO.lift. rewrite (shouldRetry_decision _ _ _ _ Hp).
    destruct (Z.leb_spec (maxAttempts policy) attempt); [|lia]. simpl.
    pose proof (executeRequest_world cfg' init w Hinit) as Hw.
    rewrite Hex in Hw. simpl in Hw. subst w1. simpl.
    rewrite length_app. simpl. repeat split; lia.
  - destruct (Hfail w) as (e & info & He & Hp & Ha).
    destruct (executeRequest cfg' w) as [r w1] eqn:Hex. simpl in He. subst r.
    pose proof (executeRequest_world cfg' init w Hinit) as Hw.
    rewrite Hex in Hw. simpl in Hw.
    set (ms := default (RetryPolicyHelper.calculateDelay attempt policy) (hint info)).
    set (w2 := {| exchanges := exchanges w1; waits := (waits w1 ++ [ms])%list;
                  warnings := (warnings w1 ++
                    [("Request failed, retrying (" +:+ decimal attempt +:+ "/"
                      +:+ decimal (maxAttempts policy) +:+ ")", url fullConfig, ms)])%list |}).
    destruct (IH (attempt + 1) e w2 ltac:(lia)) as (e' & wN & w' & Hrun & HN & Hn1 & Hn2 & Hn3).
    exists e', wN, w'.
    assert (attempts this fullConfig policy (S (S k)) attempt lastError w = (Throw e', w')) as ->.
    { rewrite <- Hrun.
      rewrite (attempts_S _ _ _ (S k)).
      destruct (Z.leb_spec attempt (maxAttempts policy)); [|lia].
      unfold IO.try_catch, attemptOnce. unfold IO.bind at 1, IO.lift at 1.
      rewrite Hreq. unfold IO.bind at 1. rewrite Hex.
      unfold IO.bind at 1, IO.lift at 1. rewrite (shouldRetry_decision _ _ _ _ Hp).
      destruct (Z.leb_spec (maxAttempts policy) attempt); [lia|]. rewrite Ha. simpl.
      unfold IO.bind at 1, IO.lift at 1. rewrite (getRetryDelay_decision _ _ _ _ Hp).
      reflexivity. }
    split; [done|]. split; [done|].
    subst w2 w1. simpl in *. rewrite ?length_app in *. simpl in *.
    repeat split; lia.
Qed.

End LoopFacts.


(** C3, as stated, fails: with three attempts and the whitelist [NETWORK],
    an endpoint that answers 503 every time (category SYSTEM, for which the
    classifier advises a retry) is asked once. *)
Lemma whitelist_cuts_the_attempts_short :
  let pf := Reference.platform
              (fun _ => Resolves (Reference.reply 503 "Service Unavailable" JNull)) in
  let client := new {| baseUrl := None; HttpClient.timeout := None;
                       defaultHeaders := None;
                       HttpClient.retryPolicy :=
                         Some {| maxAttempts := 3; baseDelay := 1000; maxDelay := 10000;
                                 exponentialBackoff := true;
                                 retryableErrors := Some [NETWORK] |} |} in
  let cfg := bare "https://api.example.com/data" GET JUndefined in
  let failure := JObj [("status", JNum (Num 503));
                       ("statusText", JStr "Service Unavailable");
                       ("response", JNull)] in
  ErrorHandler.categorize failure = Return SYSTEM
  /\ ErrorHandler.shouldRetry failure = Return true
  /\ fst (request (H := pf) client cfg idle) = Throw failure
  /\ length (exchanges (snd (request (H := pf) client cfg idle))) = 1%nat
  /\ ~ runs_maxAttempts_times (H := pf) client cfg.
Proof.
  intros pf client cfg failure.
  split; [reflexivity|]. split; [reflexivity|].
  split; [vm_compute; reflexivity|]. split; [vm_compute; reflexivity|].
  intros (e & w & Hrun & Hlen).
  assert (length (exchanges (snd (request (H := pf) client cfg idle))) = 1%nat) as Hone
    by (vm_compute; reflexivity).
  rewrite Hrun in Hone. simpl in Hone. rewrite Hone in Hlen.
  vm_compute in Hlen. discriminate.
Qed.

(** C3, amended. Let the policy allow N attempts (N at least 1) and let the
    executor fail on every attempt with an error that the policy accepts
    for a retry: one whose category is on the whitelist if the policy has a
    non-empty one, and one for which the classifier advises a retry
    otherwise.  Then [request] performs exactly N exchanges, waits N-1
    times, and is rejected with the very error of the N-th exchange. *)
Theorem failing_executor_runs_maxAttempts_times `{Platform}
    (this : HttpClient) (requestConfig cfg' : HttpRequestConfig)
    (init : RequestInit) (N : Z) (w : World) :
  let fullConfig := buildRequestConfig this requestConfig in
  let policy := resolvePolicy this fullConfig in
  maxAttempts policy = N ->
  1 <= N ->
  applyRequestInterceptors (interceptors this) fullConfig = Return cfg' ->
  fetchConfig cfg' = Return init ->
  (forall w0, exists e info,
      fst (executeRequest cfg' w0) = Throw e
      /\ ErrorHandler.parse e no_context = Return info
      /\ accepts policy info = true) ->
  exists e wN w',
    request this requestConfig w = (Throw e, w')
    /\ length (exchanges w') = (length (exchanges w) + Z.to_nat N)%nat
    /\ executeRequest cfg' wN = (Throw e, w')
    /\ S (length (exchanges wN)) = length (exchanges w')
    /\ S (length (waits w')) = (length (waits w) + Z.to_nat N)%nat.
Proof.
  intros fullConfig policy HN Hpos Hreq Hinit Hfail.
  destruct (attempts_all_fail this fullConfig policy cfg' init Hreq Hinit Hfail
              (Z.to_nat (N - 1)) 1 JUndefined w ltac:(lia))
    as (e & wN & w' & Hrun & HwN & Hn1 & Hn2 & Hn3).
  exists e, wN, w'. unfold request. fold fullConfig. fold policy.
  rewrite HN. replace (Z.to_nat N) with (S (Z.to_nat (N - 1))) by lia.
  repeat split; try done; lia.
Qed.

Lemma failing_executor_runs_maxAttempts_times_witness :
  let pf := Reference.platform
              (fun _ => Resolves (Reference.reply 503 "Service Unavailable" JNull)) in
  let client := new {| baseUrl := None; HttpClient.timeout := None;
                       defaultHeaders := None;
                       HttpClient.retryPolicy :=
                         Some {| maxAttempts := 3; baseDelay := 1000; maxDelay := 10000;
                                 exponentialBackoff := true;
                                 retryableErrors := Some [NETWORK; SYSTEM] |} |} in
  let cfg := bare "https://api.example.com/data" GET JUndefined in
  exists e w',
    request (H := pf) client cfg idle = (Throw e, w')
    /\ length (exchanges w') = 3%nat.
Proof.
  intros pf client cfg.
  destruct (failing_executor_runs_maxAttempts_times (H := pf) client cfg
              (buildRequestConfig client cfg)
              {| init_method := GET;
                 init_headers := headers (buildRequestConfig client cfg);
                 signal := Some 30000; init_body := None |}
              3 idle eq_refl ltac:(lia) eq_refl eq_refl)
    as (e & wN & w' & Hrun & Hlen & _).
  - intros w0.
    exists (JObj [("status", JNum (Num 503));
                  ("statusText", JStr "Service Unavailable");
                  ("response", JNull)]).
    eexists. split; [|split].
    + rewrite (executeRequest_outcome (H := pf) (buildRequestConfig client cfg)
                 {| init_method := GET;
                    init_headers := headers (buildRequestConfig client cfg);
                    signal := Some 30000; init_body := None |} w0 eq_refl).
      reflexivity.
    + vm_compute. reflexivity.
    + reflexivity.
  - exists e, w'. split; [exact Hrun | exact Hlen].
Defined.

(** ** The [onError] hooks *)


Lemma applyRequestInterceptors_without_onError ics cfg :
  applyRequestInterceptors (map without_onError ics) cfg
  = applyRequestInterceptors ics cfg.
Proof.
  revert cfg. induction ics as [|i ics IH]; intros cfg; [done|]. simpl.
  destruct (onRequest i) as [hook|]; [|apply IH].
  destruct (hook cfg); simpl; [apply IH|done].
Qed.

Lemma applyResponseInterceptors_without_onError ics response :
  applyResponseInterceptors (map without_onError ics) response
  = applyResponseInterceptors ics response.
Proof.
  revert response. induction ics as [|i ics IH]; intros response; [done|]. simpl.
  destruct (onResponse i) as [hook|]; [|apply IH].
  destruct (hook response); simpl; [apply IH|done].
Qed.

Section OnErrorFacts.
Context `{Platform}.

Lemma attemptOnce_without_onError this fullConfig w :
  attemptOnce (forget_onError this) fullConfig w = attemptOnce this fullConfig w.
Proof.
  unfold attemptOnce, forget_onError, IO.bind, IO.lift. simpl.
  rewrite applyRequestInterceptors_without_onError.
  destruct (applyRequestInterceptors _ _); [|done].
  destruct (executeRequest _ w) as [[response|e] w1]; [|done].
  by rewrite applyResponseInterceptors_without_onError.
Qed.

Lemma attempts_without_onError this fullConfig policy fuel :
  forall attempt lastError w,
    attempts (forget_onError this) fullConfig policy fuel attempt lastError w
    = attempts this fullConfig policy fuel attempt lastError w.
Proof.
  induction fuel as [|fuel IH]; intros attempt lastError w; [done|].
  rewrite !attempts_S. destruct (attempt <=? maxAttempts policy); [|done].
  unfold IO.try_catch. rewrite attemptOnce_without_onError.
  destruct (attemptOnce this fullConfig w) as [[v|e] w1]; [done|].
  unfold IO.bind at 1. unfold IO.bind at 5. unfold IO.lift at 1. unfold IO.lift at 3.
  destruct (RetryPolicyHelper.shouldRetry e attempt policy) as [[|]|]; simpl; try done.
  unfold IO.bind, IO.lift.
  destruct (RetryPolicyHelper.getRetryDelay e attempt policy) as [ms|]; simpl; [|done].
  apply IH.
Qed.

(** No run of [request] consults an [onError] hook: with the hooks taken
    away the outcome and every effect are the same. *)
Lemma request_ignores_onError this requestConfig w :
  request (forget_onError this) requestConfig w = request this requestConfig w.
Proof. unfold request. apply attempts_without_onError. Qed.

End OnErrorFacts.

(** C1, at an input where the code departs from it. A client with one
    interceptor whose [onError] hook would turn every error into a value
    asks an endpoint that answers 404.  The failure is final at the first
    attempt, and [get] is rejected with the executor's error, whatever the
    hook is: the hook is not run, so it can neither replace the error nor
    resolve the call. *)
Theorem terminal_failure_bypasses_onError (hook : JSValue -> Completion JSValue) :
  let pf := Reference.platform
              (fun _ => Resolves (Reference.reply 404 "Not Found" JNull)) in
  let client := addInterceptor (new no_config)
                  {| onRequest := None; onResponse := None; onError := Some hook |} in
  let outcome := get (H := pf) client "https://api.example.com/data" no_overrides idle in
  fst outcome = Throw (JObj [("status", JNum (Num 404));
                             ("statusText", JStr "Not Found");
                             ("response", JNull)])
  /\ length (exchanges (snd outcome)) = 1%nat
  /\ waits (snd outcome) = [].
Proof.
  intros pf client outcome. subst outcome. unfold get.
  rewrite <- request_ignores_onError.
  split; [vm_compute; reflexivity|]. split; vm_compute; reflexivity.
Qed.

(** ** The delay between attempts *)

(** For a failure of a transient category other than a 429 the classifier
    always has its second at hand, so the policy's own back-off is not
    computed. *)
Lemma transient_failure_waits_one_second `{Platform}
    (error : JSValue) (info : ErrorInfo) (attempt : Z) (policy : RetryPolicy) :
  ErrorHandler.parse error no_context = Return info ->
  transient (category info) = true ->
  JS.eq_num (ErrorHandler.extractStatusCode error) 429 = false ->
  RetryPolicyHelper.getRetryDelay error attempt policy = Return 1000.
Proof.
  intros Hp Ht Hs. rewrite (getRetryDelay_decision _ _ _ _ Hp).
  apply parse_Return in Hp as (Hc & _ & Ha & _).
  unfold ErrorHandler.getRetryAfter in Ha. rewrite Hs, Hc in Ha. simpl in Ha.
  unfold transient in Ht. rewrite Ht in Ha. injection Ha as Ha.
  unfold hint. by rewrite <- Ha.
Qed.

(** C2, at the input of the scenario, where the code departs from it. With
    exponential back-off, three attempts and a base delay of 100 ms, two
    NETWORK failures followed by a success make [get] resolve with the
    payload after waits of 1000 ms and 1000 ms: the classifier's second is
    taken both times, while the policy's back-off would have been 100 ms
    and 200 ms. *)
Theorem network_failures_wait_the_classifier_second :
  let failure := JObj [("name", JStr "TypeError"); ("message", JStr "Failed to fetch")] in
  let pf := Reference.platform
              (fun n => if (n <? 2)%nat then Rejects failure
                        else Resolves (Reference.reply 200 "OK" (JObj [("ok", JBool true)]))) in
  let policy := {| maxAttempts := 3; baseDelay := 100; maxDelay := 10000;
                   exponentialBackoff := true; retryableErrors := None |} in
  let client := new {| baseUrl := Some "https://api.example.com";
                       HttpClient.timeout := None; defaultHeaders := None;
                       HttpClient.retryPolicy := Some policy |} in
  let outcome := get (H := pf) client "/data" no_overrides idle in
  ErrorHandler.categorize failure = Return NETWORK
  /\ fst outcome = Return (JObj [("ok", JBool true)])
  /\ map fst (exchanges (snd outcome))
     = ["https://api.example.com/data"; "https://api.example.com/data";
        "https://api.example.com/data"]
  /\ waits (snd outcome) = [1000; 1000]
  /\ map (fun attempt => RetryPolicyHelper.calculateDelay attempt policy) [1; 2]
     = [100; 200].
Proof.
  intros failure pf policy client outcome.
  split; [reflexivity|].
  split; [vm_compute; reflexivity|].
  split; [vm_compute; reflexivity|].
  split; [vm_compute; reflexivity|].
  reflexivity.
Qed.


(** * Further properties of the code *)

(** ** [RetryPolicyHelper] *)

(** X1. Once the attempt number has reached [maxAttempts] the answer is no
    for every error, also one on which the classifier would raise: the
    error is not looked at. *)
Theorem no_retry_without_attempts_left `{Platform}
    (error : JSValue) (attempt : Z) (policy : RetryPolicy) :
  maxAttempts policy <= attempt ->
  RetryPolicyHelper.shouldRetry error attempt policy = Return false.
Proof.
  intros Hle. unfold RetryPolicyHelper.shouldRetry.
  by destruct (Z.leb_spec (maxAttempts policy) attempt); [|lia].
Qed.

Lemma no_retry_without_attempts_left_witness :
  RetryPolicyHelper.shouldRetry (H := Reference.platform (fun _ => Pending))
    (JObj [("code", JNum (Num 5))]) 3 DefaultRetryPolicy
  = Return false.
Proof.
  apply (no_retry_without_attempts_left (H := Reference.platform (fun _ => Pending))).
  simpl. lia.
Defined.

(** X2. Under exponential back-off with a base delay that is not negative,
    the delay never shrinks from one attempt to a later one and never
    passes [maxDelay]; so once it has reached the cap it stays there. *)
Theorem exponential_delay_grows_to_the_cap (policy : RetryPolicy) (a b : Z) :
  exponentialBackoff policy = true ->
  0 <= baseDelay policy ->
  1 <= a <= b ->
  RetryPolicyHelper.calculateDelay a policy <= RetryPolicyHelper.calculateDelay b policy
  /\ RetryPolicyHelper.calculateDelay b policy <= maxDelay policy
  /\ (RetryPolicyHelper.calculateDelay a policy = maxDelay policy ->
      RetryPolicyHelper.calculateDelay b policy = maxDelay policy).
Proof.
  intros He Hb Hab. unfold RetryPolicyHelper.calculateDelay. rewrite He. simpl.
  assert (2 ^ (a - 1) <= 2 ^ (b - 1)) as Hpow by (apply Z.pow_le_mono_r; lia).
  assert (baseDelay policy * 2 ^ (a - 1) <= baseDelay policy * 2 ^ (b - 1)) as Hmul
    by (apply Z.mul_le_mono_nonneg_l; lia).
  lia.
Qed.

Lemma exponential_delay_grows_to_the_cap_witness :
  RetryPolicyHelper.calculateDelay 4 DefaultRetryPolicy
    <= RetryPolicyHelper.calculateDelay 9 DefaultRetryPolicy
  /\ RetryPolicyHelper.calculateDelay 9 DefaultRetryPolicy <= 10000.
Proof.
  destruct (exponential_delay_grows_to_the_cap DefaultRetryPolicy 4 9 eq_refl)
    as (Hgrow & Hcap & _); [simpl; lia | lia |].
  split; [exact Hgrow | exact Hcap].
Defined.

(** ** [ErrorHandler] *)

Section MoreClassifierFacts.
Context `{Platform}.

(** The executor's error for a response that is not ok is classified by
    its status alone. *)
Lemma categorize_httpError r parsed :
  fetched_status r <> 0 ->
  ErrorHandler.categorize (httpError r parsed) = Return (byStatus (fetched_status r)).
Proof.
  intros Hn. apply Z.eqb_neq in Hn.
  unfold ErrorHandler.categorize, ErrorHandler.isNetworkError,
    ErrorHandler.isAuthenticationError, ErrorHandler.isAuthorizationError,
    ErrorHandler.isValidationError, ErrorHandler.isBusinessError,
    ErrorHandler.isSystemError, ErrorHandler.extractStatusCode, byStatus, httpError.
  simpl. unfold JS.or, JS.ge, JS.lt. simpl. rewrite Hn. simpl.
  rewrite !orb_false_r.
  destruct (fetched_status r =? 401) eqn:H401; [done|].
  destruct (fetched_status r =? 403) eqn:H403; [done|].
  destruct (fetched_status r =? 400) eqn:H400; [done|]. simpl.
  rewrite !andb_true_r.
  destruct ((400 <=? fetched_status r) && (fetched_status r <? 500)); [done|].
  by destruct ((500 <=? fetched_status r) && (fetched_status r <? 600)).
Qed.

Lemma extractStatusCode_httpError r parsed :
  fetched_status r <> 0 ->
  ErrorHandler.extractStatusCode (httpError r parsed) = JNum (Num (fetched_status r)).
Proof.
  intros Hn. apply Z.eqb_neq in Hn.
  unfold ErrorHandler.extractStatusCode, httpError, JS.or. simpl. by rewrite Hn.
Qed.

Lemma getRetryAfter_completes error c :
  ErrorHandler.categorize error = Return c ->
  exists after, ErrorHandler.getRetryAfter error = Return after
                /\ (is_Some after <->
                    transient c || JS.eq_num (ErrorHandler.extractStatusCode error) 429 = true).
Proof.
  intros Hc. unfold ErrorHandler.getRetryAfter, transient. rewrite Hc. simpl.
  destruct (JS.eq_num _ 429).
  - rewrite orb_true_r. destruct (JS.truthy _); eexists; (split; [done|]);
      (split; [done | intros _; by eexists]).
  - rewrite orb_false_r.
    destruct (bool_decide (c = NETWORK) || bool_decide (c = SYSTEM));
      eexists; (split; [done|]).
    + split; [done | intros _; by eexists].
    + split; [intros [x Hx]; discriminate | discriminate].
Qed.

(** Once the category is known, the rest of [parse] goes through. *)
Lemma parse_completes error ctx c :
  ErrorHandler.categorize error = Return c ->
  exists info, ErrorHandler.parse error ctx = Return info /\ category info = c.
Proof.
  intros Hc. unfold ErrorHandler.parse. rewrite Hc. simpl.
  pose proof (extractMessage_completes error) as Hm.
  destruct (ErrorHandler.extractMessage error) as [m|]; [simpl|discriminate].
  rewrite (shouldRetry_by_category _ _ Hc). simpl.
  destruct (getRetryAfter_completes _ _ Hc) as (after & -> & _). simpl.
  eexists. split; reflexivity.
Qed.

Lemma isNetworkError_stringish error :
  stringish (JS.opt error "message") = true ->
  stringish (JS.opt error "code") = true ->
  exists b, ErrorHandler.isNetworkError error = Return b.
Proof.
  unfold stringish, ErrorHandler.isNetworkError. intros Hm Hc.
  destruct (JS.truthy error) eqn:Ht; simpl; [|eauto].
  assert (JS.dot error "message" = Return (JS.opt error "message")) as ->
    by (destruct error; done).
  assert (JS.dot error "code" = Return (JS.opt error "code")) as ->
    by (destruct error; done).
  assert (JS.dot error "name" = Return (JS.opt error "name")) as ->
    by (destruct error; done).
  simpl. unfold JS.or.
  destruct (JS.truthy (JS.opt error "message")) eqn:Htm; simpl in Hm.
  - destruct (JS.opt error "message"); try discriminate. simpl.
    destruct (JS.truthy (JS.opt error "code")) eqn:Htc; simpl in Hc; [|simpl; eauto].
    destruct (JS.opt error "code"); try discriminate. simpl. eauto.
  - simpl.
    destruct (JS.truthy (JS.opt error "code")) eqn:Htc; simpl in Hc; [|simpl; eauto].
    destruct (JS.opt error "code"); try discriminate. simpl. eauto.
Qed.

Lemma isValidationError_stringish error :
  stringish (JS.opt (JS.opt error "error") "code") = true ->
  exists b, ErrorHandler.isValidationError error = Return b.
Proof.
  unfold stringish, ErrorHandler.isValidationError. intros Hc.
  destruct (_ || _ || _); [eauto|].
  destruct (JS.truthy (JS.opt (JS.opt error "error") "code")) eqn:Ht; [|eauto].
  simpl in Hc.
  destruct error as [| | | | |fields]; try discriminate. simpl in *.
  destruct (JS.assoc "error" fields) as [[| | | | |inner]|]; try discriminate.
  simpl in *. destruct (default JUndefined (JS.assoc "code" inner)); try discriminate.
  simpl. eauto.
Qed.

End MoreClassifierFacts.

(** X3. The error that the executor raises for a response that is not ok
    is classified by its status alone: 401 is AUTHENTICATION, 403
    AUTHORIZATION, 400 VALIDATION, the rest of 400..499 BUSINESS, 500..599
    SYSTEM and everything else UNKNOWN; a retry is advised for 500..599 and
    for 429, whatever the body of the response says. *)
Theorem http_errors_are_classified_by_status `{Platform}
    (r : Response) (parsed : JSValue) (ctx : ErrorContext) :
  fetched_status r <> 0 ->
  exists info,
    ErrorHandler.parse (httpError r parsed) ctx = Return info
    /\ category info = byStatus (fetched_status r)
    /\ statusCode info = JNum (Num (fetched_status r))
    /\ ErrorTypes.shouldRetry info
       = ((500 <=? fetched_status r) && (fetched_status r <? 600)
          || (fetched_status r =? 429)).
Proof.
  intros Hn. pose proof (categorize_httpError r parsed Hn) as Hc.
  destruct (parse_completes _ ctx _ Hc) as (info & Hp & Hcat).
  exists info. split; [done|]. split; [done|].
  apply parse_Return in Hp as (_ & Hr & _ & Hs & _).
  rewrite (extractStatusCode_httpError r parsed Hn) in Hs. split; [done|].
  rewrite (shouldRetry_by_category _ _ Hc),
    (extractStatusCode_httpError r parsed Hn) in Hr.
  injection Hr as <-. simpl. f_equal.
  unfold transient, byStatus.
  destruct (Z.eqb_spec (fetched_status r) 401), (Z.eqb_spec (fetched_status r) 403),
    (Z.eqb_spec (fetched_status r) 400), (Z.leb_spec 400 (fetched_status r)),
    (Z.ltb_spec (fetched_status r) 500), (Z.leb_spec 500 (fetched_status r)),
    (Z.ltb_spec (fetched_status r) 600); simpl; try reflexivity; lia.
Qed.

Lemma http_errors_are_classified_by_status_witness :
  exists info,
    ErrorHandler.parse (H := Reference.platform (fun _ => Pending))
      (httpError (Reference.reply 429 "Too Many Requests" JNull) JNull) no_context
    = Return info
    /\ category info = BUSINESS
    /\ ErrorTypes.shouldRetry info = true.
Proof.
  destruct (http_errors_are_classified_by_status
              (H := Reference.platform (fun _ => Pending))
              (Reference.reply 429 "Too Many Requests" JNull) JNull no_context)
    as (info & Hp & Hc & _ & Hr); [simpl; lia|].
  exists info. split; [exact Hp|]. split; [exact Hc | exact Hr].
Defined.

(** X4. In every classification the advice and the delay go together:
    [shouldRetry] is true exactly when [retryAfter] is set. *)
Theorem advice_and_delay_go_together `{Platform}
    (error : JSValue) (ctx : ErrorContext) (info : ErrorInfo) :
  ErrorHandler.parse error ctx = Return info ->
  ErrorTypes.shouldRetry info = true <-> is_Some (retryAfter info).
Proof.
  intros Hp. apply parse_Return in Hp as (Hc & Hr & Ha & _).
  destruct (getRetryAfter_completes _ _ Hc) as (after & Ha' & Hiff).
  rewrite Ha' in Ha. injection Ha as ->.
  rewrite (shouldRetry_by_category _ _ Hc) in Hr. injection Hr as Hr.
  rewrite <- Hr. symmetry. exact Hiff.
Qed.

Lemma advice_and_delay_go_together_witness :
  exists info,
    ErrorHandler.parse (H := Reference.platform (fun _ => Pending))
      (JObj [("status", JNum (Num 503))]) no_context = Return info
    /\ (ErrorTypes.shouldRetry info = true <-> is_Some (retryAfter info)).
Proof.
  eexists. split.
  - vm_compute. reflexivity.
  - eapply (advice_and_delay_go_together (H := Reference.platform (fun _ => Pending))
              (JObj [("status", JNum (Num 503))]) no_context).
    vm_compute. reflexivity.
Defined.

(** X5. The wording of the message outranks the status: an error object
    whose message mentions "network", "fetch", "connection" or "timeout"
    (in any letter case) is NETWORK, and a retry is advised for it, also
    when its status is 401, 403 or 400. *)
Theorem network_wording_outranks_status `{Platform}
    (fields : list (string * JSValue)) (m : string) (ctx : ErrorContext) :
  JS.assoc "message" fields = Some (JStr m) ->
  network_wording m = true ->
  stringish (JS.opt (JObj fields) "code") = true ->
  exists info,
    ErrorHandler.parse (JObj fields) ctx = Return info
    /\ category info = NETWORK
    /\ ErrorTypes.shouldRetry info = true.
Proof.
  intros Hm Hw Hc.
  assert (stringish (JS.opt (JObj fields) "message") = true) as Hsm
    by (unfold stringish, JS.opt; rewrite Hm; apply orb_true_r).
  destruct (isNetworkError_stringish _ Hsm Hc) as (b & Hb).
  assert (b = true) as ->.
  { revert Hb. unfold ErrorHandler.isNetworkError, stringish in *. simpl in *.
    rewrite Hm. simpl. unfold JS.or. simpl.
    destruct (negb (String.eqb m EmptyString)) eqn:Hne.
    - simpl. destruct (JS.truthy (default JUndefined (JS.assoc "code" fields))) eqn:Htc.
      + simpl in Hc. destruct (default JUndefined (JS.assoc "code" fields));
          try discriminate. simpl. intros [= <-].
        unfold network_wording in Hw. by rewrite Hw.
      + simpl. intros [= <-]. unfold network_wording in Hw. by rewrite Hw.
    - apply negb_false_iff, String.eqb_eq in Hne. subst m. discriminate. }
  assert (ErrorHandler.categorize (JObj fields) = Return NETWORK) as Hcat
    by (unfold ErrorHandler.categorize; rewrite Hb; done).
  destruct (parse_completes _ ctx _ Hcat) as (info & Hp & Hci).
  exists info. split; [done|]. split; [done|].
  apply (transient_is_retried _ _ _ Hp). by rewrite Hci.
Qed.

Lemma network_wording_outranks_status_witness :
  exists info,
    ErrorHandler.parse (H := Reference.platform (fun _ => Pending))
      (JObj [("status", JNum (Num 401)); ("message", JStr "Connection reset by peer")])
      no_context = Return info
    /\ category info = NETWORK
    /\ ErrorTypes.shouldRetry info = true.
Proof.
  exact (network_wording_outranks_status (H := Reference.platform (fun _ => Pending))
           [("status", JNum (Num 401)); ("message", JStr "Connection reset by peer")]
           "Connection reset by peer" no_context eq_refl eq_refl eq_refl).
Defined.

(** X6. The classifier returns a classification for every error whose
    [message], [code] and [error.code] are each a string or falsy (absent,
    empty, null, 0, false). *)
Theorem classifier_returns_on_string_fields `{Platform}
    (error : JSValue) (ctx : ErrorContext) :
  stringish (JS.opt error "message") = true ->
  stringish (JS.opt error "code") = true ->
  stringish (JS.opt (JS.opt error "error") "code") = true ->
  exists info, ErrorHandler.parse error ctx = Return info.
Proof.
  intros Hm Hc Hv.
  destruct (isNetworkError_stringish _ Hm Hc) as (net & Hnet).
  destruct (isValidationError_stringish _ Hv) as (val & Hval).
  assert (exists c, ErrorHandler.categorize error = Return c) as (c & Hcat).
  { unfold ErrorHandler.categorize. rewrite Hnet. simpl.
    destruct net; [eauto|].
    destruct (ErrorHandler.isAuthenticationError error); [eauto|].
    destruct (ErrorHandler.isAuthorizationError error); [eauto|].
    rewrite Hval. simpl. destruct val; [eauto|].
    destruct (ErrorHandler.isBusinessError error); [eauto|].
    destruct (ErrorHandler.isSystemError error); eauto. }
  destruct (parse_completes _ ctx _ Hcat) as (info & Hp & _). eauto.
Qed.

Lemma classifier_returns_on_string_fields_witness :
  exists info,
    ErrorHandler.parse (H := Reference.platform (fun _ => Pending))
      (JObj [("error", JObj [("code", JStr "0x80040217");
                             ("message", JStr "Entity does not exist")])])
      no_context = Return info.
Proof.
  exact (classifier_returns_on_string_fields (H := Reference.platform (fun _ => Pending))
           (JObj [("error", JObj [("code", JStr "0x80040217");
                                  ("message", JStr "Entity does not exist")])])
           no_context eq_refl eq_refl eq_refl).
Defined.

(** X7. What is thrown need not be an object: [null], [undefined], a
    boolean, a number or a string is classified UNKNOWN, with no retry
    advised and no delay. *)
Theorem primitives_are_unknown `{Platform} (error : JSValue) (ctx : ErrorContext) :
  (forall fields, error <> JObj fields) ->
  exists info,
    ErrorHandler.parse error ctx = Return info
    /\ category info = UNKNOWN
    /\ ErrorTypes.shouldRetry info = false
    /\ retryAfter info = None.
Proof.
  intros Hprim. pose proof (categorize_primitive error Hprim) as Hc.
  destruct (parse_completes _ ctx _ Hc) as (info & Hp & Hci).
  exists info. split; [done|]. split; [done|].
  assert (ErrorTypes.shouldRetry info = false) as Hr.
  { apply parse_Return in Hp as (_ & Hr & _).
    rewrite (shouldRetry_by_category _ _ Hc) in Hr. injection Hr as <-.
    destruct error; try reflexivity. by destruct (Hprim fields). }
  split; [done|].
  destruct (retryAfter info) as [after|] eqn:Ha; [|done].
  assert (is_Some (retryAfter info)) as Hsome by (rewrite Ha; eauto).
  apply parse_Return in Hp as (_ & Hr' & Ha' & _).
  destruct (getRetryAfter_completes _ _ Hc) as (after' & Hga & Hiff).
  rewrite Hga in Ha'. injection Ha' as ->.
  apply Hiff in Hsome.
  rewrite (shouldRetry_by_category _ _ Hc), Hsome in Hr'. congruence.
Qed.

Lemma primitives_are_unknown_witness :
  exists info,
    ErrorHandler.parse (H := Reference.platform (fun _ => Pending))
      (JStr "boom") no_context = Return info
    /\ category info = UNKNOWN.
Proof.
  destruct (primitives_are_unknown (H := Reference.platform (fun _ => Pending))
              (JStr "boom") no_context) as (info & Hp & Hc & _).
  - intros fields. discriminate.
  - exists info. split; [exact Hp | exact Hc].
Defined.

Lemma parse_userMessage `{Platform} error ctx info :
  ErrorHandler.parse error ctx = Return info -> userMessage info = None.
Proof.
  unfold ErrorHandler.parse. intros Hp.
  apply bind_Return in Hp as (c & Hc & Hp).
  apply bind_Return in Hp as (m & Hm & Hp).
  apply bind_Return in Hp as (r & Hr & Hp).
  apply bind_Return in Hp as (a & Ha & Hp).
  by injection Hp as <-.
Qed.

(** X8. Whenever an error is classified, [getUserMessage] gives a text
    that is not empty.  For NETWORK, AUTHENTICATION, AUTHORIZATION and
    SYSTEM failures the text is fixed and shows nothing of the error's own
    message. *)
Theorem user_message_is_never_empty `{Platform}
    (error : JSValue) (ctx : ErrorContext) (info : ErrorInfo) :
  ErrorHandler.parse error ctx = Return info ->
  exists text,
    ErrorHandler.getUserMessage error ctx = Return text
    /\ JS.truthy text = true
    /\ (category info = NETWORK ->
        text = JStr "Network error. Please check your connection and try again.")
    /\ (category info = AUTHENTICATION ->
        text = JStr "Authentication error. Please refresh the page and try again.")
    /\ (category info = AUTHORIZATION ->
        text = JStr "You do not have permission to perform this action.")
    /\ (category info = SYSTEM ->
        text = JStr "A system error occurred. Please try again later.").
Proof.
  intros Hp. unfold ErrorHandler.getUserMessage. rewrite Hp. simpl.
  eexists. split; [reflexivity|].
  unfold ErrorFormatter.formatUserMessage. rewrite (parse_userMessage _ _ _ Hp).
  unfold JS.or.
  destruct (category info); repeat split; try discriminate; try reflexivity;
    by destruct (JS.truthy (message info)) eqn:Hm.
Qed.

Lemma user_message_is_never_empty_witness :
  ErrorHandler.getUserMessage (H := Reference.platform (fun _ => Pending))
    timeoutError no_context
  = Return (JStr "Network error. Please check your connection and try again.").
Proof.
  destruct (user_message_is_never_empty (H := Reference.platform (fun _ => Pending))
              timeoutError no_context _ eq_refl) as (text & Ht & _ & Hnet & _).
  rewrite Ht. f_equal. apply Hnet. reflexivity.
Defined.

(** ** The delay of a retry *)

(** X9. For a classified error of status 429 the delay is read off the
    [retry-after] value: 1000 ms when there is none; the leading integer
    of the value times 1000 when there is one and it is not 0; and the
    policy's own back-off when the value starts with no digit (an HTTP
    date) or reads 0. *)
Theorem delay_of_a_429 `{Platform}
    (error : JSValue) (info : ErrorInfo) (attempt : Z) (policy : RetryPolicy) :
  ErrorHandler.parse error no_context = Return info ->
  ErrorHandler.extractStatusCode error = JNum (Num 429) ->
  RetryPolicyHelper.getRetryDelay error attempt policy =
    Return (if JS.truthy (ErrorHandler.retryAfterHeader error) then
              match JS.parseInt (ErrorHandler.retryAfterHeader error) with
              | Num n => if n =? 0 then RetryPolicyHelper.calculateDelay attempt policy
                         else n * 1000
              | NaN => RetryPolicyHelper.calculateDelay attempt policy
              end
            else 1000).
Proof.
  intros Hp Hs. rewrite (getRetryDelay_decision _ _ _ _ Hp).
  apply parse_Return in Hp as (_ & _ & Ha & _).
  unfold ErrorHandler.getRetryAfter in Ha. rewrite Hs in Ha. simpl in Ha.
  unfold hint. destruct (JS.truthy (ErrorHandler.retryAfterHeader error));
    injection Ha as <-; [|reflexivity].
  destruct (JS.parseInt (ErrorHandler.retryAfterHeader error)) as [n|]; simpl; [|done].
  destruct (Z.eqb_spec n 0) as [->|Hn]; [done|].
  destruct (Z.eqb_spec (n * 1000) 0); [lia|done].
Qed.

Lemma delay_of_a_429_witness :
  RetryPolicyHelper.getRetryDelay (H := Reference.platform (fun _ => Pending))
    (JObj [("status", JNum (Num 429));
           ("headers", JObj [("retry-after", JStr "Wed, 21 Oct 2026 07:28:00 GMT")])])
    2 DefaultRetryPolicy
  = Return 2000.
Proof.
  rewrite (delay_of_a_429 (H := Reference.platform (fun _ => Pending))
             (JObj [("status", JNum (Num 429));
                    ("headers", JObj [("retry-after", JStr "Wed, 21 Oct 2026 07:28:00 GMT")])])
             _ 2 DefaultRetryPolicy eq_refl eq_refl).
  reflexivity.
Defined.

Lemma transient_failure_waits_one_second_witness :
  RetryPolicyHelper.getRetryDelay (H := Reference.platform (fun _ => Pending))
    (JObj [("status", JNum (Num 503))]) 4
    {| maxAttempts := 5; baseDelay := 100; maxDelay := 400;
       exponentialBackoff := false; retryableErrors := None |}
  = Return 1000.
Proof.
  eapply (transient_failure_waits_one_second (H := Reference.platform (fun _ => Pending))).
  - vm_compute. reflexivity.
  - reflexivity.
  - reflexivity.
Defined.

(** ** The executor, once more *)

Section MoreExecutorFacts.
Context `{Platform}.

Lemma executeRequest_unwritable cfg e w :
  fetchConfig cfg = Throw e ->
  executeRequest cfg w = (rethrow e, w).
Proof.
  intros Hf. unfold executeRequest, IO.try_catch, IO.bind, IO.lift, rethrow.
  rewrite Hf. by destruct (isAbort e).
Qed.

(** What a run of the executor leaves in the world: at most one exchange,
    which is the one of [fetchConfig], and no wait and no warning. *)
Lemma executeRequest_trace cfg w :
  exists xs,
    exchanges (snd (executeRequest cfg w)) = (exchanges w ++ xs)%list
    /\ (length xs <= 1)%nat
    /\ waits (snd (executeRequest cfg w)) = waits w
    /\ warnings (snd (executeRequest cfg w)) = warnings w
    /\ forall x, x ∈ xs ->
         exists init, fetchConfig cfg = Return init /\ x = (url cfg, init).
Proof.
  destruct (fetchConfig cfg) as [init|e] eqn:Hf.
  - exists [(url cfg, init)]. rewrite (executeRequest_world cfg init w Hf). simpl.
    repeat split; try done. intros x Hx. apply list_elem_of_singleton in Hx as ->. eauto.
  - exists []. rewrite (executeRequest_unwritable cfg e w Hf). simpl.
    rewrite app_nil_r. repeat split; try done; [lia|]. intros x Hx. inversion Hx.
Qed.

End MoreExecutorFacts.

(** X11. The executor returns an envelope only for a response that is ok:
    then one exchange was made, the payload is the parsed body, and the
    status, the headers and the configuration are those of the exchange.
    Every other outcome of the exchange is an exception. *)
Theorem envelope_only_for_ok_responses `{Platform}
    (cfg : HttpRequestConfig) (w w' : World) (response : HttpResponse) :
  executeRequest cfg w = (Return response, w') ->
  exists init r,
    fetchConfig cfg = Return init
    /\ transport (length (exchanges w)) (url cfg) init = Resolves r
    /\ ok r = true
    /\ parseResponse r = Return (data response)
    /\ response = envelope cfg r (data response)
    /\ w' = logged w (url cfg) init.
Proof.
  intros Hrun. destruct (fetchConfig cfg) as [init|e] eqn:Hf.
  - rewrite (executeRequest_outcome cfg init w Hf) in Hrun.
    injection Hrun as Hs Hw. exists init.
    unfold settle, rethrow in Hs.
    destruct (transport _ _ _) as [r|e|]; simpl in Hs.
    + exists r. destruct (parseResponse r) as [parsed|e]; simpl in Hs.
      * destruct (ok r); simpl in Hs; [|discriminate].
        injection Hs as <-. done.
      * by destruct (isAbort e).
    + by destruct (isAbort e).
    + discriminate.
  - rewrite (executeRequest_unwritable cfg e w Hf) in Hrun.
    unfold rethrow in Hrun. by destruct (isAbort e).
Qed.

Lemma envelope_only_for_ok_responses_witness :
  let pf := Reference.platform (fun _ => Resolves (Reference.reply 200 "OK" (JNum (Num 7)))) in
  let cfg := bare "https://api.example.com/data" GET JUndefined in
  exists init r,
    fetchConfig (H := pf) cfg = Return init
    /\ transport (length (exchanges idle)) (url cfg) init = Resolves r
    /\ ok r = true.
Proof.
  intros pf cfg.
  destruct (envelope_only_for_ok_responses (H := pf) cfg idle
              (logged idle (url cfg)
                 {| init_method := GET; init_headers := None; signal := None;
                    init_body := None |})
              (envelope cfg (Reference.reply 200 "OK" (JNum (Num 7))) (JNum (Num 7))))
    as (init & r & Hi & Ht & Hok & _).
  - vm_compute. reflexivity.
  - exists init, r. split; [exact Hi|]. split; [exact Ht | exact Hok].
Defined.

(** X12. A response that is not ok is raised as the object
    [{status, statusText, response}] with the parsed body.  When the body
    cannot be parsed (the content type says JSON and the text is not), the
    parser's exception is raised in its place, and the status is lost. *)
Theorem response_that_is_not_ok_is_raised `{Platform}
    (cfg : HttpRequestConfig) (init : RequestInit) (r : Response) (w : World) :
  fetchConfig cfg = Return init ->
  transport (length (exchanges w)) (url cfg) init = Resolves r ->
  ok r = false ->
  (forall parsed, parseResponse r = Return parsed ->
                  fst (executeRequest cfg w) = Throw (httpError r parsed))
  /\ (forall e, parseResponse r = Throw e -> isAbort e = false ->
                fst (executeRequest cfg w) = Throw e).
Proof.
  intros Hf Ht Hok. rewrite (executeRequest_outcome cfg init w Hf), Ht. simpl.
  rewrite Hok. split.
  - intros parsed ->. reflexivity.
  - intros e -> Ha. unfold rethrow. by rewrite Ha.
Qed.

Lemma response_that_is_not_ok_is_raised_witness :
  let broken := {| ok := false; fetched_status := 502;
                   fetched_statusText := "Bad Gateway";
                   fetched_headers := {[ "content-type" := "application/json" ]};
                   text := "<html>Bad Gateway</html>";
                   json := Throw (JObj [("name", JStr "SyntaxError");
                                        ("message", JStr "Unexpected token <")]) |} in
  let pf := Reference.platform (fun _ => Resolves broken) in
  fst (executeRequest (H := pf) (bare "https://api.example.com/data" GET JUndefined) idle)
  = Throw (JObj [("name", JStr "SyntaxError"); ("message", JStr "Unexpected token <")]).
Proof.
  intros broken pf.
  apply (proj2 (response_that_is_not_ok_is_raised (H := pf)
                  (bare "https://api.example.com/data" GET JUndefined)
                  {| init_method := GET; init_headers := None; signal := None;
                     init_body := None |} broken idle eq_refl eq_refl eq_refl)).
  - vm_compute. reflexivity.
  - reflexivity.
Defined.

(** X13. What goes to the transport keeps the method, the headers and the
    timeout of the configuration.  A body goes with it exactly when the
    configured body is truthy and the method is not GET: a body of 0,
    false, null or the empty string is not sent under any method.  A string
    is sent as it is. *)
Theorem body_is_sent_only_if_truthy `{Platform}
    (cfg : HttpRequestConfig) (init : RequestInit) :
  fetchConfig cfg = Return init ->
  init_method init = method cfg
  /\ init_headers init = headers cfg
  /\ signal init = HttpInterceptor.timeout cfg
  /\ (init_body init = None <-> JS.truthy (body cfg) = false \/ method cfg = GET)
  /\ (forall s, body cfg = JStr s -> init_body init <> None ->
                init_body init = Some (JStr s)).
Proof.
  unfold fetchConfig. intros Hf.
  destruct (JS.truthy (body cfg)) eqn:Ht; simpl in Hf.
  - destruct (decide (method cfg = GET)) as [Hg|Hg].
    + rewrite (bool_decide_eq_true_2 _ Hg) in Hf. simpl in Hf. injection Hf as <-.
      simpl. repeat split; auto. intros s _ Hn. done.
    + rewrite (bool_decide_eq_false_2 _ Hg) in Hf. simpl in Hf.
      destruct (JS.typeof_string (body cfg)) eqn:Hs.
      * simpl in Hf. injection Hf as <-. simpl. repeat split; try done.
        -- intros [|]; done.
        -- intros s -> _. done.
      * destruct (JSON_stringify (body cfg)) as [serialized|e]; simpl in Hf;
          [|discriminate].
        injection Hf as <-. simpl. repeat split; try done.
        -- intros [|]; done.
        -- intros s Hb. rewrite Hb in Hs. discriminate.
  - injection Hf as <-. simpl. repeat split; auto. intros s _ Hn. done.
Qed.

Lemma body_is_sent_only_if_truthy_witness :
  fetchConfig (H := Reference.platform (fun _ => Pending))
    (bare "https://api.example.com/count" POST (JNum (Num 0)))
  = Return {| init_method := POST; init_headers := None; signal := None;
              init_body := None |}
  /\ init_body {| init_method := POST; init_headers := None; signal := None;
                  init_body := None |} = None.
Proof.
  split; [reflexivity|].
  apply (proj1 (proj2 (proj2 (proj2
           (body_is_sent_only_if_truthy (H := Reference.platform (fun _ => Pending))
              (bare "https://api.example.com/count" POST (JNum (Num 0)))
              _ eq_refl))))).
  left. reflexivity.
Defined.

(** X14. Reading a body raises only if the response declares JSON and its
    text is not JSON; under any other content type the payload is the
    parsed text if it happens to be JSON and the raw text otherwise. *)
Theorem parseResponse_raises_only_on_declared_json (r : Response) :
  (forall e, parseResponse r = Throw e ->
             exists contentType,
               fetched_headers r !! "content-type" = Some contentType
               /\ JS.includes contentType "application/json" = true
               /\ json r = Throw e)
  /\ ((forall contentType,
         fetched_headers r !! "content-type" = Some contentType ->
         JS.includes contentType "application/json" = false) ->
      parseResponse r = Return (match json r with
                                | Return v => v
                                | Throw _ => JStr (text r)
                                end)).
Proof.
  unfold parseResponse. split.
  - intros e He. destruct (fetched_headers r !! "content-type") as [ct|] eqn:Hct.
    + destruct (JS.includes ct "application/json") eqn:Hi.
      * exists ct. done.
      * by destruct (json r).
    + by destruct (json r).
  - intros Hno. destruct (fetched_headers r !! "content-type") as [ct|] eqn:Hct.
    + rewrite (Hno ct eq_refl). by destruct (json r).
    + by destruct (json r).
Qed.

Lemma parseResponse_raises_only_on_declared_json_witness :
  parseResponse {| ok := true; fetched_status := 200; fetched_statusText := "OK";
                   fetched_headers := {[ "content-type" := "text/plain" ]};
                   text := "pong";
                   json := Throw (JObj [("name", JStr "SyntaxError")]) |}
  = Return (JStr "pong").
Proof.
  apply (proj2 (parseResponse_raises_only_on_declared_json
                  {| ok := true; fetched_status := 200; fetched_statusText := "OK";
                     fetched_headers := {[ "content-type" := "text/plain" ]};
                     text := "pong";
                     json := Throw (JObj [("name", JStr "SyntaxError")]) |})).
  intros contentType Hct. vm_compute in Hct. injection Hct as <-. reflexivity.
Defined.

(** ** The interceptor chain *)

Lemma applyRequestInterceptors_app (first rest : list IHttpInterceptor)
    (cfg : HttpRequestConfig) :
  applyRequestInterceptors (first ++ rest) cfg
  = (cfg' <- applyRequestInterceptors first cfg;; applyRequestInterceptors rest cfg').
Proof.
  revert cfg. induction first as [|i first IH]; intros cfg; [done|]. simpl.
  destruct (onRequest i) as [hook|]; [|apply IH].
  destruct (hook cfg); simpl; [apply IH|done].
Qed.

Lemma applyResponseInterceptors_app (first rest : list IHttpInterceptor)
    (response : HttpResponse) :
  applyResponseInterceptors (first ++ rest) response
  = (response' <- applyResponseInterceptors first response;;
     applyResponseInterceptors rest response').
Proof.
  revert response. induction first as [|i first IH]; intros response; [done|]. simpl.
  destruct (onResponse i) as [hook|]; [|apply IH].
  destruct (hook response); simpl; [apply IH|done].
Qed.

(** X15. Interceptors run in the order of their registration: the hooks of
    an interceptor that is added see what the hooks registered before it
    return, a missing hook passes its input on, and an exception of an
    earlier hook keeps the later ones from running. *)
Theorem interceptors_run_in_registration_order
    (this : HttpClient) (interceptor : IHttpInterceptor) :
  (forall cfg,
      applyRequestInterceptors (interceptors (addInterceptor this interceptor)) cfg
      = (cfg' <- applyRequestInterceptors (interceptors this) cfg;;
         requestStep interceptor cfg'))
  /\ (forall response,
        applyResponseInterceptors (interceptors (addInterceptor this interceptor)) response
        = (response' <- applyResponseInterceptors (interceptors this) response;;
           responseStep interceptor response')).
Proof.
  split.
  - intros cfg. simpl. rewrite applyRequestInterceptors_app.
    destruct (applyRequestInterceptors (interceptors this) cfg) as [cfg'|e]; [|done].
    simpl. unfold requestStep. destruct (onRequest interceptor) as [hook|]; [|done].
    by destruct (hook cfg').
  - intros response. simpl. rewrite applyResponseInterceptors_app.
    destruct (applyResponseInterceptors (interceptors this) response) as [r'|e]; [|done].
    simpl. unfold responseStep. destruct (onResponse interceptor) as [hook|]; [|done].
    by destruct (hook r').
Qed.

(** ** The retry loop, once more *)

Section MoreLoopFacts.
Context `{Platform}.
Local Open Scope io_scope.

Lemma allRetriesFailed_world fullConfig lastError w :
  snd (allRetriesFailed fullConfig lastError w) = w.
Proof.
  unfold allRetriesFailed, IO.bind, IO.lift, IO.throw.
  by destruct (ErrorHandler.parse lastError _).
Qed.

(** One pass through the [try] block makes at most one exchange, the one
    of the intercepted configuration, and neither waits nor warns. *)
Lemma attemptOnce_trace this fullConfig w :
  exists xs,
    exchanges (snd (attemptOnce this fullConfig w)) = (exchanges w ++ xs)%list
    /\ (length xs <= 1)%nat
    /\ waits (snd (attemptOnce this fullConfig w)) = waits w
    /\ warnings (snd (attemptOnce this fullConfig w)) = warnings w
    /\ forall x, x ∈ xs ->
         exists cfg' init,
           applyRequestInterceptors (interceptors this) fullConfig = Return cfg'
           /\ fetchConfig cfg' = Return init
           /\ x = (url cfg', init).
Proof.
  destruct (attemptOnce this fullConfig w) as [outcome w1] eqn:Hrun. simpl.
  revert Hrun. unfold attemptOnce, IO.bind, IO.lift, IO.ret.
  destruct (applyRequestInterceptors (interceptors this) fullConfig) as [cfg'|e].
  - destruct (executeRequest_trace cfg' w) as (xs & Hx & Hl & Hw & Hm & Hall).
    intros Hrun.
    assert (snd (executeRequest cfg' w) = w1) as Hw1.
    { destruct (executeRequest cfg' w) as [[response|e] w0]; simpl.
      - destruct (applyResponseInterceptors (interceptors this) response);
          by injection Hrun.
      - by injection Hrun. }
    rewrite Hw1 in Hx, Hw, Hm. exists xs. repeat split; try done.
    intros x Hin. destruct (Hall x Hin) as (init & Hi & ->). eauto.
  - intros [= _ <-]. exists []. rewrite app_nil_r. repeat split; try done; [simpl; lia|].
    intros x Hx. inversion Hx.
Qed.

(** What the loop leaves in the world from [attempt] on. *)
Lemma attempts_trace this fullConfig policy fuel :
  forall attempt lastError w,
    exists xs ds ms,
      let w' := snd (attempts this fullConfig policy fuel attempt lastError w) in
      exchanges w' = (exchanges w ++ xs)%list
      /\ waits w' = (waits w ++ ds)%list
      /\ warnings w' = (warnings w ++ ms)%list
      /\ length ms = length ds
      /\ (length xs <= length ds + 1)%nat
      /\ (length xs <= Z.to_nat (maxAttempts policy - attempt + 1))%nat
      /\ (length ds <= Z.to_nat (maxAttempts policy - attempt))%nat
      /\ forall x, x ∈ xs ->
           exists cfg' init,
             applyRequestInterceptors (interceptors this) fullConfig = Return cfg'
             /\ fetchConfig cfg' = Return init
             /\ x = (url cfg', init).
Proof.
  assert (forall lastError w,
             exists xs ds ms,
               let w' := snd (allRetriesFailed fullConfig lastError w) in
               exchanges w' = (exchanges w ++ xs)%list
               /\ waits w' = (waits w ++ ds)%list
               /\ warnings w' = (warnings w ++ ms)%list
               /\ xs = [] /\ ds = [] /\ ms = []) as Hquiet.
  { intros lastError w. exists [], [], []. simpl.
    rewrite allRetriesFailed_world, !app_nil_r. done. }
  induction fuel as [|fuel IH]; intros attempt lastError w.
  - destruct (Hquiet lastError w) as (xs & ds & ms & Hx & Hd & Hm & -> & -> & ->).
    exists [], [], []. simpl in *. repeat split; try done; try lia.
    intros x Hin. inversion Hin.
  - rewrite attempts_S.
    destruct (Z.leb_spec attempt (maxAttempts policy)) as [Hle|Hgt].
    2:{ destruct (Hquiet lastError w) as (xs & ds & ms & Hx & Hd & Hm & -> & -> & ->).
        exists [], [], []. simpl in *. repeat split; try done; try lia.
        intros x Hin. inversion Hin. }
    destruct (attemptOnce_trace this fullConfig w) as (xs1 & Hx1 & Hl1 & Hw1 & Hm1 & Hall1).
    unfold IO.try_catch.
    destruct (attemptOnce this fullConfig w) as [[v|e] w1]; simpl in Hx1, Hw1, Hm1.
    + exists xs1, [], []. simpl. rewrite !app_nil_r.
      repeat split; try done; simpl; lia.
    + unfold IO.bind at 1, IO.lift at 1.
      destruct (RetryPolicyHelper.shouldRetry e attempt policy) as [retry|e'] eqn:Hretry.
      2:{ exists xs1, [], []. simpl. rewrite !app_nil_r.
          repeat split; try done; simpl; lia. }
      destruct retry; simpl.
      2:{ exists xs1, [], []. simpl. rewrite !app_nil_r.
          repeat split; try done; simpl; lia. }
      apply shouldRetry_true in Hretry as (Hlt & _).
      unfold IO.bind at 1, IO.lift at 1.
      destruct (RetryPolicyHelper.getRetryDelay e attempt policy) as [ms|e'].
      2:{ exists xs1, [], []. simpl. rewrite !app_nil_r.
          repeat split; try done; simpl; lia. }
      unfold IO.bind, IO.warn, IO.delay. simpl.
      match goal with
      | |- context [attempts _ _ _ fuel (attempt + 1) e ?w2] =>
          destruct (IH (attempt + 1) e w2) as (xs & ds & msgs & Hx & Hd & Hm & Hlen & Hxd & Hxb & Hdb & Hall)
      end.
      simpl in Hx, Hd, Hm.
      eexists (xs1 ++ xs)%list, (ms :: ds), (_ :: msgs). simpl.
      rewrite Hx, Hd, Hm, Hx1, Hw1, Hm1, <- !app_assoc. simpl.
      rewrite !length_app.
      repeat split; try done; try lia.
      intros x Hin. apply elem_of_app in Hin as [Hin|Hin]; eauto.
Qed.

(** A failure that the policy does not take for a retry ends the call at
    once. *)
Lemma first_failure_is_final this requestConfig e w w1 :
  let fullConfig := buildRequestConfig this requestConfig in
  let policy := resolvePolicy this fullConfig in
  1 <= maxAttempts policy ->
  attemptOnce this fullConfig w = (Throw e, w1) ->
  RetryPolicyHelper.shouldRetry e 1 policy = Return false ->
  request this requestConfig w = (Throw e, w1).
Proof.
  intros fullConfig policy Hmax Hrun Hno. unfold request.
  fold fullConfig. fold policy.
  replace (Z.to_nat (maxAttempts policy)) with (S (Z.to_nat (maxAttempts policy - 1)))
    by lia.
  rewrite attempts_S. destruct (Z.leb_spec 1 (maxAttempts policy)); [|lia].
  unfold IO.try_catch. rewrite Hrun.
  unfold IO.bind, IO.lift. rewrite Hno. reflexivity.
Qed.

End MoreLoopFacts.

(** X16. A call never retries forever.  Whatever the transport and the
    hooks do, [request] makes at most [maxAttempts] exchanges and waits at
    most [maxAttempts - 1] times; it logs one warning per wait and never
    waits after its last exchange.  With [maxAttempts] at 1 it never waits. *)
Theorem request_stays_within_maxAttempts `{Platform}
    (this : HttpClient) (requestConfig : HttpRequestConfig) (w : World) :
  let policy := resolvePolicy this (buildRequestConfig this requestConfig) in
  let w' := snd (request this requestConfig w) in
  exists xs ds ms,
    exchanges w' = (exchanges w ++ xs)%list
    /\ waits w' = (waits w ++ ds)%list
    /\ warnings w' = (warnings w ++ ms)%list
    /\ (length xs <= Z.to_nat (maxAttempts policy))%nat
    /\ (length ds <= Z.to_nat (maxAttempts policy - 1))%nat
    /\ length ms = length ds
    /\ (length xs <= length ds + 1)%nat.
Proof.
  intros policy w'. subst w'. unfold request. fold policy.
  destruct (attempts_trace this (buildRequestConfig this requestConfig) policy
              (Z.to_nat (maxAttempts policy)) 1 JUndefined w)
    as (xs & ds & ms & Hx & Hd & Hm & Hlen & Hxd & Hxb & Hdb & _).
  exists xs, ds, ms. simpl in *.
  replace (maxAttempts policy - 1 + 1) with (maxAttempts policy) in Hxb by lia.
  done.
Qed.


(** X18. With no attempt in the budget ([maxAttempts] at 0 or below) there
    is no exchange at all, and the call is rejected with [undefined]. *)
Theorem no_attempt_without_a_budget `{Platform}
    (this : HttpClient) (requestConfig : HttpRequestConfig) (w : World) :
  maxAttempts (resolvePolicy this (buildRequestConfig this requestConfig)) <= 0 ->
  request this requestConfig w = (Throw JUndefined, w).
Proof.
  intros Hle. unfold request.
  replace (Z.to_nat _) with 0%nat by lia. simpl.
  unfold allRetriesFailed, IO.bind, IO.lift, IO.throw.
  pose proof (classify_primitive JUndefined
                {| service := Some "HttpClient";
                   operation := Some (method_name
                                        (method (buildRequestConfig this requestConfig)));
                   entity := None; recordId := None; userId := None;
                   timestamp := None; additionalData := None |}
                ltac:(discriminate)) as Hc.
  by destruct (ErrorHandler.parse JUndefined _).
Qed.

Lemma no_attempt_without_a_budget_witness :
  let pf := Reference.platform (fun _ => Resolves (Reference.reply 200 "OK" JNull)) in
  let client := new {| baseUrl := None; HttpClient.timeout := None;
                       defaultHeaders := None;
                       HttpClient.retryPolicy :=
                         Some {| maxAttempts := 0; baseDelay := 1000; maxDelay := 10000;
                                 exponentialBackoff := true; retryableErrors := None |} |} in
  request (H := pf) client (bare "https://api.example.com/data" GET JUndefined) idle
  = (Throw JUndefined, idle).
Proof.
  intros pf client.
  apply (no_attempt_without_a_budget (H := pf)). simpl. lia.
Defined.





(** X21. An exception of a request hook ends the attempt before any
    exchange is made, and it is put to the policy like a failure of the
    transport: if the policy does not take it for a retry, the call is
    rejected with it and the transport is never asked. *)
Theorem failing_request_hook_makes_no_exchange `{Platform}
    (this : HttpClient) (requestConfig : HttpRequestConfig) (e : JSValue) (w : World) :
  let fullConfig := buildRequestConfig this requestConfig in
  let policy := resolvePolicy this fullConfig in
  1 <= maxAttempts policy ->
  applyRequestInterceptors (interceptors this) fullConfig = Throw e ->
  RetryPolicyHelper.shouldRetry e 1 policy = Return false ->
  request this requestConfig w = (Throw e, w).
Proof.
  intros fullConfig policy Hmax Hreq Hno. subst policy fullConfig.
  apply first_failure_is_final; try done.
  unfold attemptOnce, IO.bind, IO.lift. by rewrite Hreq.
Qed.

Lemma failing_request_hook_makes_no_exchange_witness :
  let pf := Reference.platform (fun _ => Resolves (Reference.reply 200 "OK" JNull)) in
  let refuse (cfg : HttpRequestConfig) : Completion HttpRequestConfig :=
    Throw (JObj [("message", JStr "No token"); ("code", JStr "UNAUTHORIZED")]) in
  let client := addInterceptor (new no_config)
                  {| onRequest := Some refuse; onResponse := None; onError := None |} in
  request (H := pf) client (bare "https://api.example.com/data" GET JUndefined) idle
  = (Throw (JObj [("message", JStr "No token"); ("code", JStr "UNAUTHORIZED")]), idle).
Proof.
  intros pf refuse client.
  apply (failing_request_hook_makes_no_exchange (H := pf) client).
  - simpl. lia.
  - reflexivity.
  - vm_compute. reflexivity.
Defined.

(** ** The effective configuration *)

Lemma prefix_append (p s t : string) :
  String.prefix p s = true -> String.prefix p (s +:+ t) = true.
Proof.
  revert s. induction p as [|c p IH]; intros s Hp; [by destruct (s +:+ t)|].
  destruct s as [|d s]; [discriminate|]. simpl in *.
  destruct (ascii_dec c d); [|discriminate]. by apply IH.
Qed.


(** X23. Building the effective configuration twice changes nothing, as
    long as the base URL is absent, empty or itself absolute: defaults that
    were merged in once are not merged in again. *)
Theorem buildRequestConfig_is_idempotent
    (this : HttpClient) (cfg : HttpRequestConfig) :
  baseUrl (config this) = None
  \/ baseUrl (config this) = Some EmptyString
  \/ (exists base, baseUrl (config this) = Some base /\ JS.startsWith base "http" = true) ->
  buildRequestConfig this (buildRequestConfig this cfg) = buildRequestConfig this cfg.
Proof.
  intros Hbase. unfold buildRequestConfig, JS.startsWith in *. simpl. f_equal.
  - destruct (String.prefix "http" (url cfg)) eqn:Habs; [by rewrite Habs|].
    assert (forall s, EmptyString +:+ s = s) as Hempty by reflexivity.
    destruct Hbase as [Hb|[Hb|(base & Hb & Hs)]]; rewrite Hb; simpl.
    + by rewrite !Hempty, Habs.
    + by rewrite !Hempty, Habs.
    + by rewrite (prefix_append _ _ _ Hs).
  - f_equal. apply map_eq. intros k. rewrite !lookup_union.
    by destruct (default ∅ (headers cfg) !! k),
      (default ∅ (defaultHeaders (config this)) !! k).
  - destruct (HttpInterceptor.timeout cfg) as [t|].
    + destruct (Z.eqb_spec t 0) as [->|Hn].
      * destruct (timeout (config this)) as [t'|]; [|done]. by destruct (t' =? 0).
      * by destruct (Z.eqb_spec t 0).
    + destruct (timeout (config this)) as [t'|]; [|done]. by destruct (t' =? 0).
  - destruct (HttpInterceptor.retryPolicy cfg); [done|].
    by destruct (retryPolicy (config this)).
Qed.

Lemma buildRequestConfig_is_idempotent_witness :
  let client := new {| baseUrl := Some "https://api.example.com";
                       HttpClient.timeout := None; defaultHeaders := None;
                       HttpClient.retryPolicy := None |} in
  let cfg := bare "/data" GET JUndefined in
  buildRequestConfig client (buildRequestConfig client cfg)
  = buildRequestConfig client cfg.
Proof.
  intros client cfg.
  apply (buildRequestConfig_is_idempotent client cfg).
  right. right. exists "https://api.example.com". split; reflexivity.
Defined.

(** ** The iHub service *)

(** X24. The client of the iHub service is built without a whitelist, so
    the classifier's advice alone decides on a retry (a 429 is retried).
    It allows as many attempts as [retryAttempts] says, and three when
    [retryAttempts] is absent or 0: a 0 does not switch retries off.  The
    [Authorization] header is among the defaults exactly when an API key
    that is not empty was given. *)
Theorem iHub_client_follows_the_classifier
    (settings : iHubService.PartialiHubConfig) (cfg : HttpRequestConfig) :
  let client := iHubService.httpClient (iHubService.new settings) in
  let policy := resolvePolicy client (buildRequestConfig client cfg) in
  HttpInterceptor.retryPolicy cfg = None ->
  maxAttempts policy
  = match iHubService.set_retryAttempts settings with
    | Some n => if n =? 0 then 3 else n
    | None => 3
    end
  /\ retryableErrors policy = None
  /\ (forall info, accepts policy info = ErrorTypes.shouldRetry info)
  /\ default ∅ (defaultHeaders (config client)) !! "Authorization"
     = match iHubService.set_apiKey settings with
       | Some key => if String.eqb key EmptyString then None
                     else Some ("Bearer " +:+ key)
       | None => None
       end.
Proof.
  intros client policy Hnone. subst policy client.
  unfold resolvePolicy, buildRequestConfig. simpl. rewrite Hnone. simpl.
  split; [by destruct (iHubService.set_retryAttempts settings)|].
  split; [done|]. split; [done|].
  destruct (iHubService.set_apiKey settings) as [key|]; simpl; [|reflexivity].
  destruct (String.eqb key EmptyString); [reflexivity|].
  apply lookup_insert_eq.
Qed.

Lemma iHub_client_follows_the_classifier_witness :
  let settings := {| iHubService.set_baseUrl := Some "https://ihub.example.com";
                     iHubService.set_apiKey := Some "k1";
                     iHubService.set_timeout := None;
                     iHubService.set_retryAttempts := Some 0;
                     iHubService.set_headers := None |} in
  let client := iHubService.httpClient (iHubService.new settings) in
  maxAttempts (resolvePolicy client
                 (buildRequestConfig client (bare "/api/data" GET JUndefined))) = 3.
Proof.
  intros settings client.
  exact (proj1 (iHub_client_follows_the_classifier settings
                  (bare "/api/data" GET JUndefined) eq_refl)).
Defined.

(** X25. [updateConfig] builds a new client only if the update gives a
    base URL, a timeout or a number of attempts (none of them empty or 0).
    An update of the API key alone is written to the configuration but does
    not reach the client, whose [Authorization] header stays as it was. *)
Theorem update_without_url_timeout_or_attempts_keeps_the_client
    (this : iHubService.iHubService) (settings : iHubService.PartialiHubConfig) :
  iHubService.given_text (iHubService.set_baseUrl settings) = false ->
  iHubService.given_number (iHubService.set_timeout settings) = false ->
  iHubService.given_number (iHubService.set_retryAttempts settings) = false ->
  iHubService.httpClient (iHubService.updateConfig this settings)
  = iHubService.httpClient this
  /\ iHubService.apiKey (iHubService.config (iHubService.updateConfig this settings))
     = default (iHubService.apiKey (iHubService.config this))
         (iHubService.set_apiKey settings).
Proof.
  intros Hb Ht Hr. unfold iHubService.updateConfig. simpl. by rewrite Hb, Ht, Hr.
Qed.

Lemma update_without_url_timeout_or_attempts_keeps_the_client_witness :
  let service := iHubService.new
                   {| iHubService.set_baseUrl := Some "https://ihub.example.com";
                      iHubService.set_apiKey := Some "old";
                      iHubService.set_timeout := None;
                      iHubService.set_retryAttempts := None;
                      iHubService.set_headers := None |} in
  let updated := iHubService.updateConfig service
                   {| iHubService.set_baseUrl := None;
                      iHubService.set_apiKey := Some "new";
                      iHubService.set_timeout := None;
                      iHubService.set_retryAttempts := None;
                      iHubService.set_headers := None |} in
  iHubService.httpClient updated = iHubService.httpClient service
  /\ iHubService.apiKey (iHubService.config updated) = "new".
Proof.
  intros service updated.
  exact (update_without_url_timeout_or_attempts_keeps_the_client service
           {| iHubService.set_baseUrl := None;
              iHubService.set_apiKey := Some "new";
              iHubService.set_timeout := None;
              iHubService.set_retryAttempts := None;
              iHubService.set_headers := None |} eq_refl eq_refl eq_refl).
Defined.

(** X26. [formatResponse] raises exactly on the payloads [null] and
    [undefined].  What it returns has [success] set, and formatting it
    again changes nothing. *)
Theorem formatResponse_is_idempotent `{Platform} (response : JSValue) :
  ((exists e, iHubService.formatResponse response = Throw e)
   <-> response = JUndefined \/ response = JNull)
  /\ forall formatted,
       iHubService.formatResponse response = Return formatted ->
       JS.opt formatted "success" <> JUndefined
       /\ iHubService.formatResponse formatted = Return formatted.
Proof.
  unfold iHubService.formatResponse. split.
  - split.
    + intros (e & He). destruct response as [| |b|n|s|fields]; auto;
        simpl in He; try discriminate.
      destruct (default JUndefined (JS.assoc "success" fields)); discriminate.
    + intros [->| ->]; simpl; eauto.
  - intros formatted Hf.
    destruct response as [| |b|n|s|fields]; try discriminate; simpl in Hf.
    1-3: injection Hf as <-; split; [discriminate | reflexivity].
    destruct (default JUndefined (JS.assoc "success" fields)) eqn:Hs;
      injection Hf as <-; simpl; rewrite ?Hs; split; try discriminate; reflexivity.
Qed.

Lemma formatResponse_is_idempotent_witness :
  let pf := Reference.platform (fun _ => Pending) in
  exists formatted,
    iHubService.formatResponse (H := pf) (JObj [("id", JNum (Num 1))]) = Return formatted
    /\ iHubService.formatResponse (H := pf) formatted = Return formatted.
Proof.
  intros pf. eexists. split; [reflexivity|].
  apply (proj2 (formatResponse_is_idempotent (H := pf) (JObj [("id", JNum (Num 1))]))).
  reflexivity.
Defined.

Lemma parse_raises_with_categorize `{Platform} error ctx t :
  ErrorHandler.parse error ctx = Throw t -> ErrorHandler.categorize error = Throw t.
Proof.
  intros Hp. destruct (ErrorHandler.categorize error) as [c|t'] eqn:Hc.
  - destruct (parse_completes _ ctx _ Hc) as (info & Hi & _). congruence.
  - unfold ErrorHandler.parse in Hp. rewrite Hc in Hp. simpl in Hp. congruence.
Qed.

(** X27. An operation of the service hands the client's error on as it
    is, provided the classifier returns on it.  If the classifier raises on
    the error, the operation is rejected with the classifier's exception
    and the client's error is lost. *)
Theorem service_rethrows_what_the_client_raised `{Platform}
    (operation entity : string) (work : M JSValue) (e : JSValue) (w w' : World) :
  work w = (Throw e, w') ->
  ((exists info, ErrorHandler.parse e no_context = Return info) ->
   iHubService.guarded operation entity work w = (Throw e, w'))
  /\ (forall t, ErrorHandler.parse e no_context = Throw t ->
                iHubService.guarded operation entity work w = (Throw t, w')).
Proof.
  intros Hw. unfold iHubService.guarded, IO.try_catch, IO.bind, IO.lift, IO.throw.
  rewrite Hw. split.
  - intros (info & Hp). apply parse_Return in Hp as (Hc & _).
    by destruct (parse_completes _
                   {| service := Some "iHubService"; operation := Some operation;
                      entity := Some entity; recordId := None; userId := None;
                      timestamp := None; additionalData := None |} _ Hc)
      as (info' & -> & _).
  - intros t Hp. apply parse_raises_with_categorize in Hp.
    unfold ErrorHandler.parse. by rewrite Hp.
Qed.

Lemma service_rethrows_what_the_client_raised_witness :
  let original := JObj [("message", JStr "Entity does not exist");
                        ("code", JNum (Num 2147746581))] in
  let pf := Reference.platform (fun _ => Rejects original) in
  let service := iHubService.new
                   {| iHubService.set_baseUrl := None;
                      iHubService.set_apiKey := None;
                      iHubService.set_timeout := None;
                      iHubService.set_retryAttempts := Some 1;
                      iHubService.set_headers := None |} in
  fst (iHubService.deleteData (H := pf) service "https://ihub.example.com/api/data/1" idle)
  = Throw (JS.TypeError "toLowerCase is not a function").
Proof.
  intros original pf service. unfold iHubService.deleteData.
  match goal with
  | |- fst (iHubService.guarded _ _ ?body idle) = _ => set (work := body)
  end.
  destruct (work idle) as [outcome w'] eqn:Hrun.
  assert (outcome = Throw original) as ->
    by (apply (f_equal fst) in Hrun; change (fst (work idle) = outcome) in Hrun;
        rewrite <- Hrun; vm_compute; reflexivity).
  rewrite (proj2 (service_rethrows_what_the_client_raised (H := pf)
                    "deleteData" "https://ihub.example.com/api/data/1"
                    work original idle w' Hrun)
             (JS.TypeError "toLowerCase is not a function") eq_refl).
  reflexivity.
Defined.

(** X28. The query string of [fetchData] is empty exactly when the options
    give nothing: no truthy filter, no page and no page size other than 0,
    no sort key other than the empty one, no sort order and no list of
    fields.  A page of 0 is left out, and an empty list of fields is not. *)
Theorem query_string_is_empty_iff_nothing_is_given `{Platform}
    (encodeURIComponent : string -> string)
    (options : iHubService.iHubQueryOptions) (query : string) :
  iHubService.buildQueryString encodeURIComponent (Some options) = Return query ->
  query = EmptyString
  <-> JS.truthy (iHubService.filters options) = false
      /\ iHubService.given_number (iHubService.page options) = false
      /\ iHubService.given_number (iHubService.pageSize options) = false
      /\ iHubService.given_text (iHubService.sortBy options) = false
      /\ iHubService.sortOrder options = None
      /\ iHubService.fields options = None.
Proof.
  assert (forall rest, "?" +:+ rest <> EmptyString) as Hq by (intros rest; discriminate).
  unfold iHubService.buildQueryString, iHubService.queryParams.
  destruct (JS.truthy (iHubService.filters options)).
  - destruct (JSON_stringify (iHubService.filters options)); simpl; [|discriminate].
    intros [= <-]. split; [intros Hempty; by apply Hq in Hempty | intros (? & _); done].
  - simpl.
    destruct (iHubService.given_number (iHubService.page options)),
      (iHubService.given_number (iHubService.pageSize options)),
      (iHubService.given_text (iHubService.sortBy options)),
      (iHubService.sortOrder options), (iHubService.fields options);
      simpl; intros [= <-];
      (split; [intros Hempty; try (by apply Hq in Hempty); done
              | intros (? & ? & ? & ? & ? & ?); done]).
Qed.

Lemma query_string_is_empty_iff_nothing_is_given_witness :
  let pf := Reference.platform (fun _ => Pending) in
  let options := {| iHubService.filters := JUndefined;
                    iHubService.page := Some 0;
                    iHubService.pageSize := None;
                    iHubService.sortBy := None;
                    iHubService.sortOrder := None;
                    iHubService.fields := None |} in
  iHubService.buildQueryString (H := pf) (fun s => s) (Some options) = Return EmptyString
  /\ iHubService.given_number (iHubService.page options) = false.
Proof.
  intros pf options. split; [reflexivity|].
  exact (proj1 (proj2 (proj1 (query_string_is_empty_iff_nothing_is_given (H := pf)
                                (fun s => s) options EmptyString eq_refl) eq_refl))).
Defined.

(** ** Timeouts and the server's delay, through [request] *)

(** When every attempt fails with the same error, one that the policy takes
    for a retry and for which the classifier names a delay, the loop makes
    one exchange per attempt that is left and waits that delay between
    them. *)
Lemma attempts_same_failure `{Platform}
    this fullConfig policy cfg' init (e : JSValue) (info : ErrorInfo) (d : Z) :
  applyRequestInterceptors (interceptors this) fullConfig = Return cfg' ->
  fetchConfig cfg' = Return init ->
  (forall n, settle cfg' (transport n (url cfg') init) = Throw e) ->
  ErrorHandler.parse e no_context = Return info ->
  accepts policy info = true ->
  hint info = Some d ->
  forall (k : nat) attempt lastError w,
    attempt + Z.of_nat k = maxAttempts policy ->
    exists w',
      attempts this fullConfig policy (S k) attempt lastError w = (Throw e, w')
      /\ exchanges w' = (exchanges w ++ replicate (S k) (url cfg', init))%list
      /\ waits w' = (waits w ++ replicate k d)%list.
Proof.
  intros Hreq Hinit Hfail Hp Ha Hd.
  induction k as [|k IH]; intros attempt lastError w Hsum.
  - exists (logged w (url cfg') init). rewrite attempts_S.
    destruct (Z.leb_spec attempt (maxAttempts policy)); [|lia].
    unfold IO.try_catch, attemptOnce. unfold IO.bind at 1, IO.lift at 1.
    rewrite Hreq. unfold IO.bind at 1.
    rewrite (executeRequest_outcome cfg' init w Hinit), Hfail.
    unfold IO.bind, IO.lift. rewrite (shouldRetry_decision _ _ _ _ Hp).
    destruct (Z.leb_spec (maxAttempts policy) attempt); [|lia]. simpl.
    by rewrite app_nil_r.
  - set (w2 := {| exchanges := exchanges (logged w (url cfg') init);
                  waits := (waits (logged w (url cfg') init) ++ [d])%list;
                  warnings := (warnings (logged w (url cfg') init) ++
                    [("Request failed, retrying (" +:+ decimal attempt +:+ "/"
                      +:+ decimal (maxAttempts policy) +:+ ")", url fullConfig, d)])%list |}).
    destruct (IH (attempt + 1) e w2 ltac:(lia)) as (w' & Hrun & Hx & Hw).
    exists w'. split.
    + rewrite <- Hrun. rewrite (attempts_S _ _ _ (S k)).
      destruct (Z.leb_spec attempt (maxAttempts policy)); [|lia].
      unfold IO.try_catch, attemptOnce. unfold IO.bind at 1, IO.lift at 1.
      rewrite Hreq. unfold IO.bind at 1.
      rewrite (executeRequest_outcome cfg' init w Hinit), Hfail.
      unfold IO.bind at 1, IO.lift at 1. rewrite (shouldRetry_decision _ _ _ _ Hp).
      destruct (Z.leb_spec (maxAttempts policy) attempt); [lia|]. rewrite Ha. simpl.
      unfold IO.bind at 1, IO.lift at 1. rewrite (getRetryDelay_decision _ _ _ _ Hp), Hd.
      reflexivity.
    + subst w2. simpl in Hx, Hw. rewrite Hx, Hw, <- !app_assoc. done.
Qed.

(** C6. When the exchange is still pending as the abort signal of the
    attempt fires, the executor raises the object with message
    "Request timeout", code "TIMEOUT" and status 408.  The classifier puts
    it in category NETWORK and advises a retry, and the policy decides on
    it as on every other NETWORK failure: it is retried while attempts are
    left, unless a whitelist leaves NETWORK out.  So does [request]: when
    every exchange of a call times out, each timeout but the last is
    followed by a wait of 1000 ms and a new exchange, until [maxAttempts]
    exchanges are made, and the call is rejected with the timeout error. *)
Theorem timeout_is_retried_as_a_network_failure `{Platform}
    (cfg : HttpRequestConfig) (init : RequestInit) (w : World) :
  fetchConfig cfg = Return init ->
  transport (length (exchanges w)) (url cfg) init = Pending ->
  fst (executeRequest cfg w) = Throw timeoutError
  /\ timeoutError = JObj [("message", JStr "Request timeout");
                          ("code", JStr "TIMEOUT");
                          ("status", JNum (Num 408))]
  /\ (exists info,
        ErrorHandler.parse timeoutError no_context = Return info
        /\ category info = NETWORK
        /\ ErrorTypes.shouldRetry info = true
        /\ message info = JStr "Request timeout"
        /\ errorCode info = JStr "TIMEOUT"
        /\ statusCode info = JNum (Num 408))
  /\ (forall (policy : RetryPolicy) (attempt : Z),
       (attempt < maxAttempts policy ->
        (forall c cs, retryableErrors policy = Some (c :: cs) -> NETWORK ∈ c :: cs) ->
        RetryPolicyHelper.shouldRetry timeoutError attempt policy = Return true)
       /\ (forall error info,
             ErrorHandler.parse error no_context = Return info ->
             category info = NETWORK ->
             RetryPolicyHelper.shouldRetry timeoutError attempt policy
             = RetryPolicyHelper.shouldRetry error attempt policy))
  /\ (forall (this : HttpClient) (requestConfig : HttpRequestConfig) (w0 : World),
        1 <= maxAttempts (resolvePolicy this (buildRequestConfig this requestConfig)) ->
        (forall c cs,
            retryableErrors (resolvePolicy this (buildRequestConfig this requestConfig))
            = Some (c :: cs) -> NETWORK ∈ c :: cs) ->
        applyRequestInterceptors (interceptors this)
          (buildRequestConfig this requestConfig) = Return cfg ->
        (forall n, transport n (url cfg) init = Pending) ->
        exists w',
          request this requestConfig w0 = (Throw timeoutError, w')
          /\ exchanges w'
             = (exchanges w0
                ++ replicate
                     (Z.to_nat (maxAttempts
                                  (resolvePolicy this
                                     (buildRequestConfig this requestConfig))))
                     (url cfg, init))%list
          /\ waits w'
             = (waits w0
                ++ replicate
                     (Z.to_nat (maxAttempts
                                  (resolvePolicy this
                                     (buildRequestConfig this requestConfig)) - 1))
                     1000)%list).
Proof.
  intros Hi Hp.
  assert (exists info,
             ErrorHandler.parse timeoutError no_context = Return info
             /\ category info = NETWORK
             /\ ErrorTypes.shouldRetry info = true
             /\ hint info = Some 1000
             /\ message info = JStr "Request timeout"
             /\ errorCode info = JStr "TIMEOUT"
             /\ statusCode info = JNum (Num 408))
    as (tinfo & Ht & Hc & Hr & Hh & Hrest).
  { eexists. split; [reflexivity|]. simpl. done. }
  assert (forall policy,
             (forall c cs, retryableErrors policy = Some (c :: cs) -> NETWORK ∈ c :: cs) ->
             accepts policy tinfo = true) as Haccepts.
  { intros policy Hw. unfold accepts.
    destruct (retryableErrors policy) as [[|c cs]|] eqn:Hl; rewrite ?Hr; try done.
    rewrite Hc. by rewrite (bool_decide_eq_true_2 _ (Hw c cs eq_refl)). }
  split; [by rewrite (executeRequest_outcome _ _ _ Hi), Hp|].
  split; [reflexivity|].
  split; [by exists tinfo|].
  split.
  - intros policy attempt. split.
    + intros Hlt Hw. rewrite (shouldRetry_decision _ _ _ _ Ht).
      destruct (Z.leb_spec (maxAttempts policy) attempt); [lia|].
      by rewrite (Haccepts policy Hw).
    + intros error info He Hn.
      rewrite (shouldRetry_decision _ _ _ _ Ht), (shouldRetry_decision _ _ _ _ He).
      unfold accepts. rewrite Hc, Hn, Hr.
      by rewrite (transient_is_retried _ _ _ He) by (by rewrite Hn).
  - intros this requestConfig w0 Hmax Hw Hreq Hall. unfold request.
    set (policy := resolvePolicy this (buildRequestConfig this requestConfig)) in *.
    replace (Z.to_nat (maxAttempts policy)) with (S (Z.to_nat (maxAttempts policy - 1)))
      by lia.
    apply (attempts_same_failure this (buildRequestConfig this requestConfig) policy
             cfg init timeoutError tinfo 1000 Hreq Hi); try done.
    + intros n. by rewrite Hall.
    + by apply Haccepts.
    + lia.
Qed.

Lemma timeout_is_retried_as_a_network_failure_witness :
  let pf := Reference.platform (fun _ => Pending) in
  let cfg := {| url := "https://api.example.com/data"; method := GET;
                headers := None; body := JUndefined;
                HttpInterceptor.timeout := Some 50;
                HttpInterceptor.retryPolicy := Some DefaultRetryPolicy |} in
  let client := new no_config in
  let init := {| init_method := GET;
                 init_headers := headers (buildRequestConfig client cfg);
                 signal := Some 50; init_body := None |} in
  fst (executeRequest (H := pf) cfg idle) = Throw timeoutError
  /\ RetryPolicyHelper.shouldRetry (H := pf) timeoutError 1 DefaultRetryPolicy
     = Return true
  /\ exists w',
       request (H := pf) client cfg idle = (Throw timeoutError, w')
       /\ exchanges w' = replicate 3 ("https://api.example.com/data", init)
       /\ waits w' = [1000; 1000].
Proof.
  intros pf cfg client init.
  assert (forall c cs, retryableErrors DefaultRetryPolicy = Some (c :: cs) ->
                       NETWORK ∈ c :: cs) as Hlisted
    by (intros c cs Hl; injection Hl as <- <-; constructor).
  destruct (timeout_is_retried_as_a_network_failure (H := pf) cfg
              {| init_method := GET; init_headers := None; signal := Some 50;
                 init_body := None |} idle eq_refl eq_refl)
    as (Hthrown & _ & _ & Hpolicy & _).
  split; [exact Hthrown|]. split.
  - pose proof (proj1 (Hpolicy DefaultRetryPolicy 1)) as Hdefault.
    apply Hdefault; [reflexivity | exact Hlisted].
  - destruct (timeout_is_retried_as_a_network_failure (H := pf)
                (buildRequestConfig client cfg) init idle eq_refl eq_refl)
      as (_ & _ & _ & _ & Hrequest).
    destruct (Hrequest client cfg idle) as (w' & Hrun & Hx & Hw).
    + simpl. lia.
    + exact Hlisted.
    + reflexivity.
    + intros n. reflexivity.
    + exists w'. split; [exact Hrun|]. split; [exact Hx | exact Hw].
Defined.

(** The error that the executor raises for a 429 holds the body of the
    response under [response], and no headers.  Unless the body itself has
    a [headers.retry-after], the delay is the classifier's 1000 ms,
    whatever headers the response had. *)
Lemma executor_429_waits_one_second `{Platform}
    (r : Response) (parsed : JSValue) (attempt : Z) (policy : RetryPolicy) :
  fetched_status r = 429 ->
  JS.truthy (JS.opt (JS.opt parsed "headers") "retry-after") = false ->
  RetryPolicyHelper.getRetryDelay (httpError r parsed) attempt policy = Return 1000.
Proof.
  intros Hs Hb. assert (fetched_status r <> 0) as Hn by lia.
  destruct (parse_completes _ no_context _ (categorize_httpError r parsed Hn))
    as (info & Hp & _).
  rewrite (getRetryDelay_decision _ _ _ _ Hp).
  apply parse_Return in Hp as (_ & _ & Ha & _).
  unfold ErrorHandler.getRetryAfter in Ha.
  rewrite (extractStatusCode_httpError r parsed Hn), Hs in Ha. simpl in Ha.
  unfold ErrorHandler.retryAfterHeader, httpError, JS.or in Ha. simpl in Ha.
  rewrite Hb in Ha. simpl in Ha. injection Ha as Ha.
  unfold hint. by rewrite <- Ha.
Qed.

(** C8, at an input where the code departs from it. An endpoint answers
    429 with the header [Retry-After: 2] and then 200, under a policy that
    retries a 429.  The call resolves after a wait of 1000 ms, not 2000 ms:
    the executor's error does not hold the headers of the response, so
    [getRetryAfter] finds no value and falls back on its second.  An error
    object that does hold the header, under the name [Retry-After], fares
    the same, for the name is looked up in lower case only. *)
Theorem retry_after_of_the_response_is_not_read :
  let limited := {| ok := false; fetched_status := 429;
                    fetched_statusText := "Too Many Requests";
                    fetched_headers :=
                      <["retry-after" := "2"]>
                        {[ "content-type" := "application/json" ]};
                    text := "null"; json := Return JNull |} in
  let pf := Reference.platform
              (fun n => if (n <? 1)%nat then Resolves limited
                        else Resolves (Reference.reply 200 "OK" (JObj [("ok", JBool true)]))) in
  let policy := {| maxAttempts := 3; baseDelay := 100; maxDelay := 10000;
                   exponentialBackoff := true; retryableErrors := None |} in
  let client := new {| baseUrl := Some "https://api.example.com";
                       HttpClient.timeout := None; defaultHeaders := None;
                       HttpClient.retryPolicy := Some policy |} in
  let outcome := get (H := pf) client "/data" no_overrides idle in
  fetched_headers limited !! "retry-after" = Some "2"
  /\ fst outcome = Return (JObj [("ok", JBool true)])
  /\ length (exchanges (snd outcome)) = 2%nat
  /\ waits (snd outcome) = [1000]
  /\ RetryPolicyHelper.getRetryDelay (H := pf)
       (JObj [("status", JNum (Num 429));
              ("headers", JObj [("Retry-After", JStr "2")])]) 1 policy
     = Return 1000.
Proof.
  intros limited pf policy client outcome.
  split; [vm_compute; reflexivity|].
  split; [vm_compute; reflexivity|].
  split; [vm_compute; reflexivity|].
  split; [vm_compute; reflexivity|].
  vm_compute. reflexivity.
Qed.

(** X22. The effective configuration always has headers, and [request]
    always has a policy: the caller's if there is one, then the client's,
    then the default.  When the client's configuration holds a timeout,
    the effective timeout is the caller's unless that is absent or 0, in
    which case it is the client's; when the caller or the client gives a
    policy, it is written into the effective configuration. *)
Theorem effective_config_is_resolved (this : HttpClient) (cfg : HttpRequestConfig) :
  let full := buildRequestConfig this cfg in
  is_Some (headers full)
  /\ resolvePolicy this full
     = default (default DefaultRetryPolicy (retryPolicy (config this)))
         (HttpInterceptor.retryPolicy cfg)
  /\ (forall T, timeout (config this) = Some T ->
        HttpInterceptor.timeout full
        = Some (match HttpInterceptor.timeout cfg with
                | Some t => if t =? 0 then T else t
                | None => T
                end))
  /\ (is_Some (HttpInterceptor.retryPolicy cfg) \/ is_Some (retryPolicy (config this)) ->
      HttpInterceptor.retryPolicy full = Some (resolvePolicy this full)).
Proof.
  intros full. subst full. unfold buildRequestConfig, resolvePolicy. simpl.
  split; [eauto|]. split.
  - by destruct (HttpInterceptor.retryPolicy cfg), (retryPolicy (config this)).
  - split.
    + intros T HT. rewrite HT.
      destruct (HttpInterceptor.timeout cfg) as [t|]; [|done]. by destruct (t =? 0).
    + intros [[p Hp]|[p Hp]]; rewrite Hp; [done|].
      by destruct (HttpInterceptor.retryPolicy cfg).
Qed.

Lemma effective_config_is_resolved_witness :
  let client := {| config := {| baseUrl := None; HttpClient.timeout := Some 30000;
                                defaultHeaders := None;
                                HttpClient.retryPolicy := Some DefaultRetryPolicy |};
                   interceptors := [] |} in
  let full := buildRequestConfig client
                {| url := "/data"; method := GET; headers := None; body := JUndefined;
                   HttpInterceptor.timeout := Some 0;
                   HttpInterceptor.retryPolicy := None |} in
  HttpInterceptor.timeout full = Some 30000
  /\ HttpInterceptor.retryPolicy full = Some DefaultRetryPolicy.
Proof.
  intros client full.
  destruct (effective_config_is_resolved client
              {| url := "/data"; method := GET; headers := None; body := JUndefined;
                 HttpInterceptor.timeout := Some 0;
                 HttpInterceptor.retryPolicy := None |})
    as (_ & _ & Ht & Hp).
  split.
  - exact (Ht 30000 eq_refl).
  - apply Hp. right. eexists. reflexivity.
Defined.
